(** * py3status [usbguard] module: registry of pending USB devices

    A shallow embedding of [py3status/modules/usbguard.py]: the
    [UsbguardListener] signal handlers, the click dispatcher
    [Py3status._set_policy] / [Py3status.on_click] and the render method
    [Py3status.usbguard], followed by the properties of the device
    registry that the module's specification states. *)

From Stdlib Require Import ZArith String Ascii List Bool Lia.
From stdpp Require Import base option list strings gmap.

Open Scope Z_scope.
Open Scope string_scope.
Open Scope list_scope.

(** ** Python values *)

(** The values that flow through the module: [None], integers (device
    ids, buttons) and strings. *)
Inductive scalar :=
| PyNone
| PyInt (n : Z)
| PyStr (s : string).

#[global] Instance scalar_eq_dec : EqDecision scalar.
Proof. solve_decision. Defined.

(** Python truthiness ([if x:]) of a scalar. *)
Definition truthy (v : scalar) : bool :=
  match v with
  | PyNone => false
  | PyInt n => negb (n =? 0)%Z
  | PyStr s => negb (String.eqb s "")
  end.

(** A py3status composite: a list of text segments, each of which may
    carry an ['index'] tag that is handed back in click events. *)
Record segment := Segment { seg_text : string; seg_index : scalar }.

Abbreviation composite := (list segment).

(** A formatter parameter is a scalar or a composite. *)
Inductive value :=
| Scalar (v : scalar)
| Composite (c : composite).

(** [str.replace(old, new)] for single characters. *)
Fixpoint replace (old new : ascii) (s : string) : string :=
  match s with
  | EmptyString => EmptyString
  | String c s' =>
      String (if Ascii.eqb c old then new else c) (replace old new s')
  end.

(** [sub in s] for strings. *)
Fixpoint str_in (sub s : string) : bool :=
  String.prefix sub s ||
  match s with
  | EmptyString => false
  | String _ s' => str_in sub s'
  end.

(** ** Ordered dictionaries keyed by device id

    [self.data] is a Python [dict]; iteration follows insertion order, an
    assignment to an existing key keeps its position. *)
Module OrdDict.
Section Ops.
Context {V : Type}.

Fixpoint get (k : Z) (d : list (Z * V)) : option V :=
  match d with
  | [] => None
  | (k', v) :: d' => if (k =? k')%Z then Some v else get k d'
  end.

Definition mem (k : Z) (d : list (Z * V)) : bool :=
  match get k d with Some _ => true | None => false end.

Fixpoint set (k : Z) (v : V) (d : list (Z * V)) : list (Z * V) :=
  match d with
  | [] => [(k, v)]
  | (k', v') :: d' =>
      if (k =? k')%Z then (k', v) :: d' else (k', v') :: set k v d'
  end.

Fixpoint del (k : Z) (d : list (Z * V)) : list (Z * V) :=
  match d with
  | [] => []
  | (k', v') :: d' => if (k =? k')%Z then del k d' else (k', v') :: del k d'
  end.

Definition keys (d : list (Z * V)) : list Z := map fst d.
End Ops.
End OrdDict.

(** ** Module state *)

(** A device record is a [dict] from attribute names to scalars.  Device
    records are heap objects: the registry holds references to them. *)
Abbreviation device := (gmap string scalar).
Abbreviation loc := nat.

(** Calls made to the outside world, in the order they are issued. *)
Inductive effect :=
| NotifyUser (msg : string)
| ApplyDevicePolicy (usbguard_id target : Z) (permanent : bool)
| Py3Update.

#[global] Instance effect_eq_dec : EqDecision effect.
Proof. solve_decision. Defined.

Inductive exn :=
| KeyError
| TypeError
| DaemonError
| ModuleError (msg : string).

Inductive result (A : Type) :=
| Ok (a : A)
| Raise (e : exn).
Arguments Ok {A} a.
Arguments Raise {A} e.

Record state := State {
  heap : list device;             (* the device dicts, by reference *)
  data : list (Z * loc);          (* self.data *)
  new_data : option composite;    (* self.new_data: {} or {'format_device': c} *)
  is_permanant : bool;            (* self.is_permanant *)
  error : option string;          (* self.error *)
  placeholders : list string;     (* keys of self.placeholders *)
  log : list effect               (* external calls issued so far *)
}.

(** Configuration parameters of the module. *)
Record config := Config {
  button_allow : scalar;
  button_block : scalar;
  button_reject : scalar;
  format : string;
  format_device : string;
  format_device_separator : string;
  format_notification : string
}.

Definition default_config : config :=
  {| button_allow := PyInt 1;
     button_block := PyInt 3;
     button_reject := PyNone;
     format := "[{format_device}]";
     format_device := "{name}";
     format_device_separator := " \?color=separator \| ";
     format_notification := "{name} is {action}" |}.

Definition STRING_USBGUARD_DBUS : string := "usbguard-dbus service not running".

(** ** A state-and-exception monad

    A raised exception does not roll back the mutations made before it. *)
Definition M (A : Type) : Type := state -> result A * state.

Definition ret {A} (a : A) : M A := fun s => (Ok a, s).

Definition bind {A B} (m : M A) (k : A -> M B) : M B :=
  fun s =>
    match m s with
    | (Ok a, s') => k a s'
    | (Raise e, s') => (Raise e, s')
    end.

Definition raise {A} (e : exn) : M A := fun s => (Raise e, s).

Definition gets {A} (f : state -> A) : M A := fun s => (Ok (f s), s).

Definition modify (f : state -> state) : M unit := fun s => (Ok tt, f s).

Notation "'do' x <- m ; k" := (bind m (fun x => k))
  (at level 10, x name, m at level 100, k at level 200).
Notation "'exec' m ; k" := (bind m (fun _ => k))
  (at level 10, m at level 100, k at level 200).

Definition set_heap (h : list device) (s : state) : state :=
  State h (data s) (new_data s) (is_permanant s) (error s) (placeholders s) (log s).
Definition set_data (d : list (Z * loc)) (s : state) : state :=
  State (heap s) d (new_data s) (is_permanant s) (error s) (placeholders s) (log s).
Definition set_new_data (c : option composite) (s : state) : state :=
  State (heap s) (data s) c (is_permanant s) (error s) (placeholders s) (log s).
Definition set_is_permanant (b : bool) (s : state) : state :=
  State (heap s) (data s) (new_data s) b (error s) (placeholders s) (log s).
Definition set_error (e : option string) (s : state) : state :=
  State (heap s) (data s) (new_data s) (is_permanant s) e (placeholders s) (log s).
Definition emit (e : effect) : M unit :=
  modify (fun s =>
    State (heap s) (data s) (new_data s) (is_permanant s) (error s)
          (placeholders s) (log s ++ [e])).

(** ** Heap and dictionary accesses *)

(** [dict(...)]: a new device object. *)
Definition heap_alloc (d : device) : M loc :=
  fun s => (Ok (length (heap s)), set_heap (heap s ++ [d]) s).

(** Following a reference; references held by the registry are always
    allocated (see [wf]). *)
Definition deref (l : loc) : M device :=
  gets (fun s => default ∅ (heap s !! l)).

(** [obj[k] = v] on the device object at [l]. *)
Definition heap_setitem (l : loc) (k : string) (v : scalar) : M unit :=
  modify (fun s =>
    set_heap (<[l := <[k := v]> (default ∅ (heap s !! l))]> (heap s)) s).

(** [self.data[k]] *)
Definition data_getitem (k : Z) : M loc :=
  fun s =>
    match OrdDict.get k (data s) with
    | Some l => (Ok l, s)
    | None => (Raise KeyError, s)
    end.

(** [self.data[k] = l] *)
Definition data_setitem (k : Z) (l : loc) : M unit :=
  modify (fun s => set_data (OrdDict.set k l (data s)) s).

(** [del self.data[k]] *)
Definition data_delitem (k : Z) : M unit :=
  fun s =>
    if OrdDict.mem k (data s)
    then (Ok tt, set_data (OrdDict.del k (data s)) s)
    else (Raise KeyError, s).

(** [d[k]] on a device dict. *)
Definition dict_getitem (d : device) (k : string) : M scalar :=
  match d !! k with
  | Some v => ret v
  | None => raise KeyError
  end.

(** [for x in xs: ...] collecting the results. *)
Fixpoint mapM {A B} (f : A -> M B) (xs : list A) : M (list B) :=
  match xs with
  | [] => ret []
  | x :: xs' => do y <- f x; do ys <- mapM f xs'; ret (y :: ys)
  end.

(** ** py3 helpers on composites *)

(** Modelled from the spec: [py3.composite_update] is not part of the
    module; it tags every segment of a composite with the given index
    (section 4.5: each joined unit carries the device's id as a tag). *)
Definition composite_update (c : composite) (idx : scalar) : composite :=
  map (fun g => Segment (seg_text g) idx) c.

(** Modelled from the spec: [py3.composite_join] is not part of the
    module; it joins the items with the separator between them
    (section 4.5), and no items give the empty composite. *)
Fixpoint composite_join (sep : composite) (items : list composite) : composite :=
  match items with
  | [] => []
  | [c] => c
  | c :: items' => c ++ sep ++ composite_join sep items'
  end.

(** Modelled from the spec: [py3.get_composite_string] is not part of the
    module; it is the plain text of a composite. *)
Definition get_composite_string (c : composite) : string :=
  foldr (fun g acc => seg_text g +:+ acc) "" c.

(** Modelled from the spec: [py3.error] is not part of the module; it
    reports the message to the host by raising (section 7: the
    connection error is surfaced on every render cycle as an error
    state). *)
Definition py3_error {A} (msg : string) : M A := raise (ModuleError msg).

(** ** Signal payloads and click events *)

(** [event[4]] of a bus signal: the positional fields
    (id, state, old state, permissions, attributes). *)
Record payload := Payload {
  p_id : Z;                       (* event[4][0] *)
  p_state : Z;                    (* event[4][1] *)
  p_old : Z;                      (* event[4][2] *)
  p_perms : string;               (* event[4][3] *)
  p_attrs : gmap string string    (* event[4][4] *)
}.

Inductive action := Allow | Block | Reject.

#[global] Instance action_eq_dec : EqDecision action.
Proof. solve_decision. Defined.

Definition action_name (a : action) : string :=
  match a with
  | Allow => "allow"
  | Block => "block"
  | Reject => "reject"
  end.

(** [targets = {'allow': 0, 'block': 1, 'reject': 2}] *)
Definition targets (a : action) : Z :=
  match a with
  | Allow => 0
  | Block => 1
  | Reject => 2
  end.

Inductive cache := CACHE_FOREVER.

Record response := Response {
  cached_until : cache;
  urgent : bool;
  r_composite : option composite;
  r_full_text : option composite
}.

(** ** The module's methods *)

Section Usbguard.
(** [py3.safe_format] and [py3.get_placeholders_list] belong to the
    formatting engine; the module is parametric in them. *)
Variable safe_format : string -> gmap string value -> composite.
Variable get_placeholders_list : string -> list string.
Variable cfg : config.

(** [Py3status._init_dbus]; [ok] tells whether [self.dbus.get] succeeds. *)
Definition _init_dbus (ok : bool) : M unit :=
  exec modify (set_error None);
  if ok then ret tt
  else modify (set_error (Some STRING_USBGUARD_DBUS)).

(** [Py3status._toggle_permanant] *)
Definition _toggle_permanant : M unit :=
  modify (fun s => set_is_permanant (negb (is_permanant s)) s).

Definition available_placeholders : list string :=
  [ "id"; "name"; "via_port"; "hash"; "parent_hash"; "serial";
    "with_interface"; "format_device" ].

(** The keys of [self.placeholders] built by [post_config_hook]. *)
Definition init_placeholders : list string :=
  let placeholders :=
    get_placeholders_list (format_device cfg +:+ format_notification cfg) in
  filter (fun placeholder => placeholder ∈ placeholders) available_placeholders
  ++ ["usbguard_id"].

(** [Py3status.post_config_hook]: the state in which the listener
    thread is started. *)
Definition post_config_hook (ok : bool) : state :=
  snd (_init_dbus ok
         {| heap := []; data := []; new_data := None;
            is_permanant := false; error := None;
            placeholders := init_placeholders; log := [] |}).

(** [Py3status._manipulate_devices], applied to [self.data]. *)
Definition _manipulate_devices : M composite :=
  let format_device_separator :=
    composite_update (safe_format (format_device_separator cfg) ∅) (PyStr "sep") in
  do keys <- gets (fun s => OrdDict.keys (data s));
  do format_device <-
    mapM (fun dev =>
            do l <- data_getitem dev;
            do d <- deref l;
            let device_formatted :=
              safe_format (format_device cfg) (Scalar <$> d) in
            do idx <- dict_getitem d "index";
            ret (composite_update device_formatted idx))
         keys;
  ret (composite_join format_device_separator format_device).

(** [self.new_data['format_device'] = self._manipulate_devices(self.data)] *)
Definition refresh : M unit :=
  do c <- _manipulate_devices;
  modify (set_new_data (Some c)).

(** The device dict built on insertion. *)
Definition new_device (phs : list string) (usbguard_id : Z)
    (attrs : gmap string string) : device :=
  foldl (fun dev new_key =>
           let old_key := replace "_" "-" new_key in
           match attrs !! old_key with
           | Some v =>
               if truthy (PyStr v) then <[new_key := PyStr v]> dev
               else <[new_key := PyNone]> dev
           | None => dev
           end)
        (<["index" := PyInt usbguard_id]>
           (<["usbguard_id" := PyInt usbguard_id]> ∅))
        phs.

(** [UsbguardListener._on_devices_presence_changed] *)
Definition _on_devices_presence_changed (event : payload) : M unit :=
  let device_perms := p_perms event in
  let device_state := p_state event in
  let usbguard_id := p_id event in
  exec (if (device_state =? 1)%Z then
          if str_in "block id" device_perms then
            do phs <- gets placeholders;
            do l <- heap_alloc (new_device phs usbguard_id (p_attrs event));
            data_setitem usbguard_id l
          else ret tt
        else
          do present <- gets (fun s => OrdDict.mem usbguard_id (data s));
          if present then data_delitem usbguard_id else ret tt);
  exec refresh;
  emit Py3Update.

(** The [for action in actions] loop of the policy handler; the branch
    that deletes the entry leaves the loop ([break]). *)
Fixpoint policy_loop (actions : list string) (usbguard_id : Z)
    (device_perms : string) : M unit :=
  match actions with
  | [] => ret tt
  | act :: actions' =>
      if str_in act device_perms then
        do present <- gets (fun s => OrdDict.mem usbguard_id (data s));
        if present then
          exec data_delitem usbguard_id;
          refresh
        else policy_loop actions' usbguard_id device_perms
      else policy_loop actions' usbguard_id device_perms
  end.

(** [UsbguardListener._on_devices_policy_changed] *)
Definition _on_devices_policy_changed (event : payload) : M unit :=
  let usbguard_id := p_id event in
  let device_perms := p_perms event in
  exec policy_loop ["allow id"; "reject id"] usbguard_id device_perms;
  emit Py3Update.

(** The daemon call [self.proxy.applyDevicePolicy(...)]; [rpc_ok] tells
    whether the daemon accepts it.  [self.proxy] is taken to be bound:
    the listener reads it before it subscribes to any signal, so that it
    is bound whenever a device is in the registry; a click made before
    the first successful connection is outside this model. *)
Definition applyDevicePolicy (usbguard_id target : Z) (permanent rpc_ok : bool)
    : M unit :=
  exec emit (ApplyDevicePolicy usbguard_id target permanent);
  if rpc_ok then ret tt else raise DaemonError.

(** [Py3status._set_policy].  [index] is the tag of the clicked segment:
    a device id, ['sep'] or [None]; the registry has integer keys only,
    so that another index finds no entry.  [rpc_ok] is the outcome of the
    daemon call, should one be made. *)
Definition _set_policy (act : action) (index : scalar) (rpc_ok : bool) : M unit :=
  if truthy (PyStr (action_name act)) && truthy index
     && negb (bool_decide (index = PyStr "sep"))
  then
    (* notifications *)
    exec (if truthy (PyStr (format_notification cfg)) then
            match index with
            | PyInt k =>
                do l <- data_getitem k;
                exec heap_setitem l "action" (PyStr (action_name act));
                do d <- deref l;
                let format_notification :=
                  safe_format (format_notification cfg) (Scalar <$> d) in
                let notification := get_composite_string format_notification in
                emit (NotifyUser notification)
            | _ => raise KeyError
            end
          else ret tt);
    (* apply policy *)
    match act with
    | Block =>
        match index with
        | PyInt usbguard_id =>
            do l <- data_getitem usbguard_id;
            do d <- deref l;
            if negb (bool_decide (d = ∅)) then
              exec data_delitem usbguard_id;
              refresh
            else ret tt
        | _ => raise KeyError
        end
    | _ =>
        do permanent <- gets is_permanant;
        match index with
        | PyInt usbguard_id =>
            applyDevicePolicy usbguard_id (targets act) permanent rpc_ok
        | _ => raise TypeError    (* the bus call takes an integer id *)
        end
    end
  else ret tt.

(** [Py3status.on_click], with [event['button']] and [event['index']]. *)
Definition on_click (button : Z) (index : scalar) (rpc_ok : bool) : M unit :=
  if bool_decide (PyInt button = button_allow cfg) then
    _set_policy Allow index rpc_ok
  else if bool_decide (PyInt button = button_reject cfg) then
    _set_policy Reject index rpc_ok
  else if bool_decide (PyInt button = button_block cfg) then
    _set_policy Block index rpc_ok
  else ret tt.

(** [Py3status.usbguard] *)
Definition usbguard : M response :=
  do err <- gets error;
  exec (match err with
        | Some msg => py3_error msg
        | None => ret tt
        end);
  do nd <- gets new_data;
  match nd with
  | Some c =>
      let composite :=
        safe_format (format cfg) {[ "format_device" := Composite c ]} in
      ret (Response CACHE_FOREVER true (Some composite) None)
  | None =>
      ret (Response CACHE_FOREVER true None
             (Some (safe_format (format cfg)
                      {[ "format_device" := Scalar (PyStr "") ]})))
  end.
End Usbguard.

(** ** The listener's signals and their replay *)

Inductive signal :=
| DevicePresenceChanged (event : payload)
| DevicePolicyChanged (event : payload).

Section Listener.
Variable safe_format : string -> gmap string value -> composite.
Variable cfg : config.

(** The two subscriptions made by [UsbguardListener.run]. *)
Definition signal_fired (sig : signal) : M unit :=
  match sig with
  | DevicePresenceChanged event =>
      _on_devices_presence_changed safe_format cfg event
  | DevicePolicyChanged event =>
      _on_devices_policy_changed safe_format cfg event
  end.

(** Signals are handled one at a time, in the order of delivery; the
    main loop goes on after a handler that raised. *)
Definition replay (sigs : list signal) (s : state) : state :=
  foldl (fun s sig => (signal_fired sig s).2) s sigs.
End Listener.

(** ** The vocabulary of the specification *)

(** The events of the specification's signal decoder (section 4.1). *)
Inductive decoded :=
| DeviceInserted (id : Z) (attrs : gmap string string)
| DeviceRemoved (id : Z)
| PolicyChanged (id : Z) (granted : action).

(** The decoder as the specification words it: an insertion is state
    code 1 with a ["block id"] permission, a removal is state code 3, a
    policy change grants allow or reject; anything else is no event. *)
Definition spec_decode (sig : signal) : option decoded :=
  match sig with
  | DevicePresenceChanged e =>
      if (p_state e =? 1)%Z && str_in "block id" (p_perms e)
      then Some (DeviceInserted (p_id e) (p_attrs e))
      else if (p_state e =? 3)%Z then Some (DeviceRemoved (p_id e))
      else None
  | DevicePolicyChanged e =>
      if str_in "allow id" (p_perms e) then Some (PolicyChanged (p_id e) Allow)
      else if str_in "reject id" (p_perms e)
      then Some (PolicyChanged (p_id e) Reject)
      else None
  end.

(** [ev] is an insertion of [id]. *)
Definition inserts (id : Z) (ev : decoded) : bool :=
  match ev with
  | DeviceInserted i _ => (i =? id)%Z
  | _ => false
  end.

(** [ev] is a removal of [id] or a policy change granting allow or
    reject for [id]. *)
Definition clears (id : Z) (ev : decoded) : bool :=
  match ev with
  | DeviceInserted _ _ => false
  | DeviceRemoved i => (i =? id)%Z
  | PolicyChanged i _ => (i =? id)%Z
  end.

(** The last event about [id] is an insertion: some insertion of [id] is
    followed by no removal and no granting policy change for [id]. *)
Definition ends_pending (id : Z) (evs : list decoded) : Prop :=
  exists pre ev post,
    evs = (pre ++ ev :: post)%list /\ inserts id ev = true /\
    Forall (fun e => clears id e = false) post.

(** ** Well-formed and reachable states *)

(** A registry entry refers to an allocated device dict that has an
    ['index'] key. *)
Definition entry_ok (h : list device) (kl : Z * loc) : Prop :=
  is_Some (h !! kl.2 ≫= (fun d : device => d !! "index")).

Definition wf (s : state) : Prop := Forall (entry_ok (heap s)) (data s).

#[global] Instance wf_dec s : Decision (wf s).
Proof. unfold wf, entry_ok. apply _. Defined.

(** The daemon calls in a log. *)
Definition is_policy_call (e : effect) : bool :=
  match e with
  | ApplyDevicePolicy _ _ _ => true
  | _ => false
  end.

Definition policy_calls (l : list effect) : list effect :=
  filter (fun e => is_policy_call e = true) l.

(** A daemon call that asks for a permanent decision. *)
Definition permanent_call (e : effect) : bool :=
  match e with
  | ApplyDevicePolicy _ _ permanent => permanent
  | _ => false
  end.

(** Any daemon call in [e] carries the permanent flag [b]. *)
Definition carries (b : bool) (e : effect) : Prop :=
  forall k target permanent,
    e = ApplyDevicePolicy k target permanent -> permanent = b.

(** With an empty registry the stored device list is unset or empty. *)
Definition synced (s : state) : Prop :=
  data s = [] -> new_data s = None \/ new_data s = Some [].

(** [frame s s']: what no handler changes between [s] and [s'].  The
    permanent flag, the error and the placeholders stay; a well-formed
    registry stays well-formed and without duplicate ids; the log only
    grows, and the daemon calls added to it carry the permanent flag. *)
Definition frame (s s' : state) : Prop :=
  is_permanant s' = is_permanant s /\
  error s' = error s /\
  placeholders s' = placeholders s /\
  (wf s -> wf s') /\
  (NoDup (OrdDict.keys (data s)) -> NoDup (OrdDict.keys (data s'))) /\
  exists new,
    log s' = log s ++ new /\
    Forall (carries (is_permanant s)) new.

(** [post m P Q]: from a state in [P], [m] ends in a state in [Q],
    whether it returns or raises. *)
Definition post {A} (m : M A) (P Q : state -> Prop) : Prop :=
  forall s, P s -> Q (m s).2.

Section Reachable.
Variable safe_format : string -> gmap string value -> composite.
Variable get_placeholders_list : string -> list string.
Variable cfg : config.

(** The states the module can be in: it starts in [post_config_hook];
    the listener thread connects to the bus and handles signals, the
    host delivers clicks. *)
Inductive reachable : state -> Prop :=
| reach_start ok :
    reachable (post_config_hook get_placeholders_list cfg ok)
| reach_init_dbus s ok :
    reachable s -> reachable (_init_dbus ok s).2
| reach_signal s sig :
    reachable s -> reachable (signal_fired safe_format cfg sig s).2
| reach_click s button index rpc_ok :
    reachable s ->
    reachable (on_click safe_format cfg button index rpc_ok s).2.
End Reachable.

(** ** A sample configuration

    A formatter that shows the [name] parameter, a device list handed to
    it, or else the format text itself; the module's default
    configuration; the signals of a USB stick and of a card reader. *)
Definition sample_format (fmt : string) (params : gmap string value) : composite :=
  match params !! "format_device" with
  | Some (Composite c) => c
  | Some (Scalar _) => []
  | None =>
      match params !! "name" with
      | Some (Scalar (PyStr n)) => [Segment n PyNone]
      | _ => [Segment fmt PyNone]
      end
  end.

Definition sample_placeholders (fmt : string) : list string :=
  ["name"; "action"].

Definition mass_storage : payload :=
  {| p_id := 42; p_state := 1; p_old := 0;
     p_perms := "block id 0781:5581 serial 4C530001 name Mass Storage";
     p_attrs := {[ "name" := "Mass Storage" ]} |}.

Definition card_reader : payload :=
  {| p_id := 7; p_state := 1; p_old := 0;
     p_perms := "block id 0bda:0129";
     p_attrs := ∅ |}.

(** The daemon reports that the USB stick was allowed. *)
Definition mass_storage_allowed : payload :=
  {| p_id := 42; p_state := 1; p_old := 0;
     p_perms := "allow id 0781:5581 serial 4C530001 name Mass Storage";
     p_attrs := ∅ |}.

(** A presence signal with state code 2 for the USB stick. *)
Definition mass_storage_update : payload :=
  {| p_id := 42; p_state := 2; p_old := 1;
     p_perms := "block id 0781:5581 serial 4C530001 name Mass Storage";
     p_attrs := {[ "name" := "Mass Storage" ]} |}.

(** A device to which the daemon gave the id 0. *)
Definition first_device : payload :=
  {| p_id := 0; p_state := 1; p_old := 0;
     p_perms := "block id 046d:c52b";
     p_attrs := {[ "name" := "Receiver" ]} |}.

(** The default configuration without notifications. *)
Definition quiet_config : config :=
  {| button_allow := PyInt 1;
     button_block := PyInt 3;
     button_reject := PyNone;
     format := "[{format_device}]";
     format_device := "{name}";
     format_device_separator := " \?color=separator \| ";
     format_notification := "" |}.

Definition sample_start : state :=
  post_config_hook sample_placeholders default_config true.

(** The module after the USB stick was plugged in. *)
Definition sample_pending : state :=
  replay sample_format default_config
    [DevicePresenceChanged mass_storage] sample_start.

(** ** Consistency of the registry with the heap *)

(** The ['index'] field of the device dict behind an entry is the
    entry's own id. *)
Definition index_ok (h : list device) (kl : Z * loc) : Prop :=
  h !! kl.2 ≫= (fun d : device => d !! "index") = Some (PyInt kl.1).

(** No id and no device dict occurs twice in the registry, every entry
    is tagged with its id, and ['index'] is not a placeholder. *)
Definition consistent (s : state) : Prop :=
  NoDup (OrdDict.keys (data s)) /\
  NoDup (map snd (data s)) /\
  Forall (index_ok (heap s)) (data s) /\
  "index" ∉ placeholders s.

(** The device list as a function of a registry snapshot: the formatted
    devices in registry order, each tagged with its id, joined by the
    separator tagged ['sep']. *)
Definition render_registry (sf : string -> gmap string value -> composite)
    (cfg : config) (h : list device) (dt : list (Z * loc)) : composite :=
  composite_join
    (composite_update (sf (format_device_separator cfg) ∅) (PyStr "sep"))
    (map (fun kl : Z * loc =>
            composite_update
              (sf (format_device cfg) (Scalar <$> default ∅ (h !! kl.2)))
              (PyInt kl.1))
         dt).

(** Device dicts are never dropped from the heap, and an existing dict
    changes at most in its ['action'] key. *)
Definition heap_grows (s s' : state) : Prop :=
  forall l d, heap s !! l = Some d ->
    exists d', heap s' !! l = Some d' /\
      forall key, key <> "action" -> d' !! key = d !! key.

(** A segment is tagged ['sep'] or with the id of a registry entry. *)
Definition tag_ok (dt : list (Z * loc)) (g : segment) : Prop :=
  seg_index g = PyStr "sep" \/
  exists k, k ∈ OrdDict.keys dt /\ seg_index g = PyInt k.

(** Every segment of the stored device list is tagged ['sep'] or with
    the id of a device that is in the registry. *)
Definition shown_ok (s : state) : Prop :=
  forall c, new_data s = Some c -> Forall (tag_ok (data s)) c.

(** ** The start-up enumeration *)

(** What [x[0]] raises for a scalar [x]: [TypeError] for an integer or
    [None], [IndexError] for the empty string. *)
Inductive subscript_error :=
| NotSubscriptable
| IndexOutOfRange.

(** [x[0]]: the first character of a string. *)
Definition first_item (x : scalar) : subscript_error + string :=
  match x with
  | PyStr (String c _) => inr (String c EmptyString)
  | PyStr EmptyString => inl IndexOutOfRange
  | PyInt _ => inl NotSubscriptable
  | PyNone => inl NotSubscriptable
  end.

(** [for x in device: print(x[0])], with the lines printed so far. *)
Fixpoint print_fields (device : list scalar) (out : list string)
    : list string * option subscript_error :=
  match device with
  | [] => (out, None)
  | x :: device' =>
      match first_item x with
      | inl e => (out, Some e)
      | inr c => print_fields device' (out ++ [c])
      end
  end.

(** [UsbguardListener._get_all_devices], applied to the list that
    [listDevices('match')] returned; each device is the sequence of its
    fields.  The result is the printed lines and the exception, if one
    is raised. *)
Fixpoint _get_all_devices (devices : list (list scalar)) (out : list string)
    : list string * option subscript_error :=
  match devices with
  | [] => (out, None)
  | device :: devices' =>
      match print_fields device out with
      | (out', None) => _get_all_devices devices' out'
      | (out', Some e) => (out', Some e)
      end
  end.

(** A non-empty string. *)
Definition nonempty_str (x : scalar) : Prop :=
  exists c rest, x = PyStr (String c rest).

(** The first character of a string field. *)
Definition first_char (x : scalar) : string :=
  match x with
  | PyStr (String c _) => String c EmptyString
  | _ => EmptyString
  end.

(** The module after a click with the allow button on the USB stick. *)
Definition sample_allowed : state :=
  (on_click sample_format default_config 1 (PyInt 42) true sample_pending).2.

(** The device id that a signal is about. *)
Definition signal_id (sig : signal) : Z :=
  match sig with
  | DevicePresenceChanged event => p_id event
  | DevicePolicyChanged event => p_id event
  end.

(** A computation that only reads the state. *)
Definition read_only {A} (m : M A) : Prop := forall s, (m s).2 = s.

(** * Properties *)

(** ** Strings *)

Lemma prefix_spec sub s :
  String.prefix sub s = true <-> exists post, s = sub +:+ post.
Proof.
  revert s. induction sub as [|c sub IH]; intros s.
  - split; [intros _; by exists s | intros _; by destruct s].
  - destruct s as [|c' s]; simpl.
    + split; [done | intros [post H]; discriminate H].
    + destruct (ascii_dec c c') as [->|Hne].
      * rewrite IH. split; intros [post H]; exists post.
        -- by rewrite H.
        -- change (String c' s = String c' (sub +:+ post)) in H. congruence.
      * split; [done | intros [post H]].
        change (String c' s = String c (sub +:+ post)) in H. congruence.
Qed.

(** [str_in] is Python's substring test. *)
Lemma str_in_spec sub s :
  str_in sub s = true <-> exists pre post, s = pre +:+ sub +:+ post.
Proof.
  induction s as [|c s IH].
  - change (str_in sub "") with (String.prefix sub "" || false).
    rewrite orb_false_r, prefix_spec. split.
    + intros [post H]. by exists "", post.
    + intros (pre & post & H). destruct pre; [by exists post | done].
  - change (str_in sub (String c s))
      with (String.prefix sub (String c s) || str_in sub s).
    rewrite orb_true_iff, prefix_spec, IH. split.
    + intros [[post H] | (pre & post & H)].
      * by exists "", post.
      * exists (String c pre), post. by rewrite H.
    + intros (pre & post & H). destruct pre as [|c' pre].
      * left. by exists post.
      * right. exists pre, post.
        change (String c s = String c' (pre +:+ sub +:+ post)) in H.
        congruence.
Qed.

(** ** Ordered dictionaries *)

Module OrdDictFacts.
Import OrdDict.
Section Facts.
Context {V : Type}.
Implicit Types (d : list (Z * V)) (k : Z) (v : V).

Lemma mem_keys k d : mem k d = true <-> k ∈ keys d.
Proof.
  unfold mem, keys. induction d as [|[k' v'] d IH]; simpl.
  - split; [discriminate | intros H; inversion H].
  - destruct (Z.eqb_spec k k') as [->|Hne].
    + split; [intros _; left | reflexivity].
    + rewrite IH. split; [by right |].
      intros H. inversion H; subst; [congruence | done].
Qed.

Lemma mem_false_keys k d : mem k d = false <-> k ∉ keys d.
Proof.
  rewrite <- mem_keys. destruct (mem k d); split; congruence.
Qed.

Lemma get_is_Some k d : is_Some (get k d) <-> k ∈ keys d.
Proof.
  rewrite <- mem_keys. unfold mem.
  destruct (get k d); split; intros H; try done; by eexists.
Qed.

Lemma get_elem_of k d v : get k d = Some v -> (k, v) ∈ d.
Proof.
  induction d as [|[k' v'] d IH]; simpl; [discriminate |].
  destruct (Z.eqb_spec k k') as [->|Hne].
  - intros [= ->]. left.
  - intros H. right. auto.
Qed.

Lemma keys_set k k0 v d : k ∈ keys (set k0 v d) <-> k = k0 \/ k ∈ keys d.
Proof.
  unfold keys. induction d as [|[k' v'] d IH]; simpl.
  - rewrite list_elem_of_singleton. split; [auto | intros [H|H]; [done | inversion H]].
  - destruct (Z.eqb_spec k0 k') as [->|Hne]; simpl.
    + rewrite !elem_of_cons. tauto.
    + rewrite !elem_of_cons, IH. tauto.
Qed.

Lemma keys_del k k0 d : k ∈ keys (del k0 d) <-> k <> k0 /\ k ∈ keys d.
Proof.
  unfold keys. induction d as [|[k' v'] d IH]; simpl.
  - split; [intros H; inversion H | intros [_ H]; inversion H].
  - destruct (Z.eqb_spec k0 k') as [->|Hne]; simpl.
    + rewrite IH, elem_of_cons. split; [tauto |]. intros [H1 [H2|H2]]; tauto.
    + rewrite !elem_of_cons, IH. split; [|tauto].
      intros [->|H]; [split; [congruence | by left] | tauto].
Qed.

Lemma get_set_eq k v d : get k (set k v d) = Some v.
Proof.
  induction d as [|[k' v'] d IH]; simpl.
  - by rewrite Z.eqb_refl.
  - destruct (Z.eqb_spec k k') as [->|Hne]; simpl.
    + by rewrite Z.eqb_refl.
    + destruct (Z.eqb_spec k k'); [done | apply IH].
Qed.

Lemma get_set_ne k k0 v d : k <> k0 -> get k (set k0 v d) = get k d.
Proof.
  intros Hne. induction d as [|[k' v'] d IH]; simpl.
  - destruct (Z.eqb_spec k k0); done.
  - destruct (Z.eqb_spec k0 k') as [->|Hne']; simpl.
    + destruct (Z.eqb_spec k k'); done.
    + destruct (Z.eqb_spec k k'); [done | apply IH].
Qed.

Lemma get_del_eq k d : get k (del k d) = None.
Proof.
  induction d as [|[k' v'] d IH]; simpl; [done |].
  destruct (Z.eqb_spec k k') as [->|Hne]; simpl; [done |].
  destruct (Z.eqb_spec k k'); done.
Qed.

Lemma get_del_ne k k0 d : k <> k0 -> get k (del k0 d) = get k d.
Proof.
  intros Hne. induction d as [|[k' v'] d IH]; simpl; [done |].
  destruct (Z.eqb_spec k0 k') as [->|Hne']; simpl.
  - destruct (Z.eqb_spec k k'); done.
  - destruct (Z.eqb_spec k k'); [done | apply IH].
Qed.

Lemma elem_of_set k l k0 v d :
  (k, l) ∈ set k0 v d -> (k = k0 /\ l = v) \/ (k, l) ∈ d.
Proof.
  induction d as [|[k' v'] d IH]; simpl.
  - rewrite list_elem_of_singleton. intros [= -> ->]. by left.
  - destruct (Z.eqb_spec k0 k') as [->|Hne]; rewrite !elem_of_cons.
    + intros [[= -> ->]|H]; [by left | right; by right].
    + intros [H|H]; [right; by left |].
      destruct (IH H); [by left | right; by right].
Qed.

Lemma elem_of_del k l k0 d : (k, l) ∈ del k0 d -> (k, l) ∈ d.
Proof.
  induction d as [|[k' v'] d IH]; simpl; [done |].
  destruct (Z.eqb_spec k0 k') as [->|Hne]; rewrite ?elem_of_cons.
  - intros H. right. auto.
  - intros [H|H]; [by left | right; auto].
Qed.

Lemma NoDup_set k v d : NoDup (keys d) -> NoDup (keys (set k v d)).
Proof.
  unfold keys. induction d as [|[k' v'] d IH]; simpl.
  - intros _. apply NoDup_singleton.
  - rewrite NoDup_cons. intros [Hnin Hnd].
    destruct (Z.eqb_spec k k') as [->|Hne]; simpl.
    + by apply NoDup_cons.
    + apply NoDup_cons. split; [|auto].
      intros Hin. apply (keys_set k' k v d) in Hin. destruct Hin; [congruence | done].
Qed.

Lemma NoDup_del k d : NoDup (keys d) -> NoDup (keys (del k d)).
Proof.
  unfold keys. induction d as [|[k' v'] d IH]; simpl; [done |].
  rewrite NoDup_cons. intros [Hnin Hnd].
  destruct (Z.eqb_spec k k') as [->|Hne]; simpl; [auto |].
  apply NoDup_cons. split; [|auto].
  intros Hin. apply (keys_del k' k d) in Hin. tauto.
Qed.
End Facts.
End OrdDictFacts.

(** ** How the methods change the state *)

Section Effects.
Context (sf : string -> gmap string value -> composite) (cfg : config).

Lemma read_only_ret {A} (a : A) : read_only (ret a).
Proof. done. Qed.

Lemma read_only_raise {A} e : read_only (@raise A e).
Proof. done. Qed.

Lemma read_only_gets {A} (f : state -> A) : read_only (gets f).
Proof. done. Qed.

Lemma read_only_bind {A B} (m : M A) (k : A -> M B) :
  read_only m -> (forall a, read_only (k a)) -> read_only (bind m k).
Proof.
  intros Hm Hk s. unfold bind. specialize (Hm s).
  destruct (m s) as [[a|e] s']; simpl in *; subst; [apply Hk | done].
Qed.

Lemma read_only_mapM {A B} (f : A -> M B) xs :
  (forall x, read_only (f x)) -> read_only (mapM f xs).
Proof.
  intros Hf. induction xs as [|x xs IH]; simpl; [apply read_only_ret |].
  apply read_only_bind; [apply Hf | intros y].
  apply read_only_bind; [apply IH | intros ys; apply read_only_ret].
Qed.

Lemma read_only_data_getitem k : read_only (data_getitem k).
Proof. intros s. unfold data_getitem. by destruct (OrdDict.get k (data s)). Qed.

Lemma read_only_dict_getitem d k : read_only (dict_getitem d k).
Proof. intros s. unfold dict_getitem. by destruct (d !! k). Qed.

Lemma read_only_manipulate_devices : read_only (_manipulate_devices sf cfg).
Proof.
  unfold _manipulate_devices.
  apply read_only_bind; [apply read_only_gets | intros keys].
  apply read_only_bind; [| intros; apply read_only_ret].
  apply read_only_mapM. intros k.
  apply read_only_bind; [apply read_only_data_getitem | intros l].
  apply read_only_bind; [apply read_only_gets | intros d].
  apply read_only_bind; [apply read_only_dict_getitem | intros v].
  apply read_only_ret.
Qed.

(** [refresh] either stores the new composite or raises and changes
    nothing. *)
Lemma refresh_unfold s :
  refresh sf cfg s =
    match (_manipulate_devices sf cfg s).1 with
    | Ok c => (Ok tt, set_new_data (Some c) s)
    | Raise e => (Raise e, s)
    end.
Proof.
  unfold refresh, bind.
  pose proof (read_only_manipulate_devices s) as H.
  destruct (_manipulate_devices sf cfg s) as [[c|e] s']; simpl in *; by subst.
Qed.

Lemma refresh_data s : data (refresh sf cfg s).2 = data s.
Proof. rewrite refresh_unfold. by destruct (_manipulate_devices sf cfg s).1. Qed.

Lemma refresh_heap s : heap (refresh sf cfg s).2 = heap s.
Proof. rewrite refresh_unfold. by destruct (_manipulate_devices sf cfg s).1. Qed.

Lemma refresh_log s : log (refresh sf cfg s).2 = log s.
Proof. rewrite refresh_unfold. by destruct (_manipulate_devices sf cfg s).1. Qed.

Lemma refresh_is_permanant s : is_permanant (refresh sf cfg s).2 = is_permanant s.
Proof. rewrite refresh_unfold. by destruct (_manipulate_devices sf cfg s).1. Qed.

Lemma refresh_error s : error (refresh sf cfg s).2 = error s.
Proof. rewrite refresh_unfold. by destruct (_manipulate_devices sf cfg s).1. Qed.

Lemma refresh_placeholders s : placeholders (refresh sf cfg s).2 = placeholders s.
Proof. rewrite refresh_unfold. by destruct (_manipulate_devices sf cfg s).1. Qed.

Lemma del_absent {V} k (d : list (Z * V)) :
  OrdDict.mem k d = false -> OrdDict.del k d = d.
Proof.
  unfold OrdDict.mem. induction d as [|[k' v'] d IH]; simpl; [done |].
  destruct (Z.eqb_spec k k'); [done |]. intros H. by rewrite IH.
Qed.

(** The registry after a presence signal. *)
Lemma presence_data event s :
  data (_on_devices_presence_changed sf cfg event s).2 =
    if (p_state event =? 1)%Z then
      if str_in "block id" (p_perms event)
      then OrdDict.set (p_id event) (length (heap s)) (data s)
      else data s
    else OrdDict.del (p_id event) (data s).
Proof.
  unfold _on_devices_presence_changed.
  destruct (p_state event =? 1)%Z.
  - destruct (str_in "block id" (p_perms event)); unfold bind; simpl;
      rewrite refresh_unfold;
      match goal with |- context [(_manipulate_devices sf cfg ?t).1] =>
        by destruct (_manipulate_devices sf cfg t).1 end.
  - unfold bind at 1 2; simpl. unfold data_delitem.
    destruct (OrdDict.mem (p_id event) (data s)) eqn:Hm; simpl; rewrite ?Hm.
    + unfold bind. rewrite refresh_unfold.
      match goal with |- context [(_manipulate_devices sf cfg ?t).1] =>
        by destruct (_manipulate_devices sf cfg t).1 end.
    + unfold bind. rewrite refresh_unfold, (del_absent _ _ Hm).
      by destruct (_manipulate_devices sf cfg s).1.
Qed.

(** The registry after a policy signal. *)
Lemma policy_data event s :
  data (_on_devices_policy_changed sf cfg event s).2 =
    if str_in "allow id" (p_perms event) || str_in "reject id" (p_perms event)
    then OrdDict.del (p_id event) (data s)
    else data s.
Proof.
  unfold _on_devices_policy_changed, policy_loop.
  destruct (OrdDict.mem (p_id event) (data s)) eqn:Hm.
  - destruct (str_in "allow id" (p_perms event));
      [|destruct (str_in "reject id" (p_perms event))]; simpl;
      unfold bind; simpl; unfold data_delitem; rewrite ?Hm; simpl;
      rewrite ?refresh_unfold;
      try match goal with |- context [(_manipulate_devices sf cfg ?t).1] =>
        by destruct (_manipulate_devices sf cfg t).1 end; done.
  - rewrite (del_absent _ _ Hm).
    destruct (str_in "allow id" (p_perms event));
      destruct (str_in "reject id" (p_perms event)); simpl;
      unfold bind; simpl; by rewrite ?Hm.
Qed.
End Effects.

(** ** Replay of signals *)

Section Replay.
Context (sf : string -> gmap string value -> composite) (cfg : config).

Lemma replay_snoc sigs sig s :
  replay sf cfg (sigs ++ [sig]) s =
    (signal_fired sf cfg sig (replay sf cfg sigs s)).2.
Proof. unfold replay. by rewrite foldl_app. Qed.

(** One decoded event: the id is in the registry afterwards iff the
    event inserts it, or it was there and the event does not clear it. *)
Lemma signal_fired_keys sig ev s id :
  spec_decode sig = Some ev ->
  id ∈ OrdDict.keys (data (signal_fired sf cfg sig s).2) <->
  inserts id ev = true \/
  (clears id ev = false /\ id ∈ OrdDict.keys (data s)).
Proof.
  destruct sig as [e|e]; simpl.
  - rewrite presence_data.
    destruct (Z.eqb_spec (p_state e) 1) as [H1|H1]; simpl.
    + destruct (str_in "block id" (p_perms e)).
      * intros [= <-]; simpl. rewrite OrdDictFacts.keys_set.
        rewrite Z.eqb_eq. intuition congruence.
      * rewrite H1; simpl. discriminate.
    + destruct (p_state e =? 3)%Z; [|discriminate].
      intros [= <-]; simpl. rewrite OrdDictFacts.keys_del.
      rewrite Z.eqb_neq. intuition congruence.
  - rewrite policy_data.
    destruct (str_in "allow id" (p_perms e)); simpl.
    + intros [= <-]; simpl. rewrite OrdDictFacts.keys_del.
      rewrite Z.eqb_neq. intuition congruence.
    + destruct (str_in "reject id" (p_perms e)); [|discriminate].
      intros [= <-]; simpl. rewrite OrdDictFacts.keys_del.
      rewrite Z.eqb_neq. intuition congruence.
Qed.

Lemma ends_pending_nil id : ~ ends_pending id [].
Proof. intros (pre & ev & post & H & _). by destruct pre. Qed.

Lemma ends_pending_snoc id evs ev :
  ends_pending id (evs ++ [ev]) <->
  inserts id ev = true \/ (clears id ev = false /\ ends_pending id evs).
Proof.
  split.
  - intros (pre & e & post & Heq & Hins & Hpost).
    destruct post as [|p post _] using rev_ind.
    + apply app_inj_tail in Heq as [_ ->]. by left.
    + rewrite app_comm_cons, app_assoc in Heq.
      apply app_inj_tail in Heq as [-> ->].
      apply Forall_app in Hpost as [Hpost Hp].
      right. split; [by inversion Hp |].
      by exists pre, e, post.
  - intros [Hins | [Hcl (pre & e & post & -> & Hins & Hpost)]].
    + exists evs, ev, []. by rewrite Forall_nil.
    + exists pre, e, (post ++ [ev]). rewrite <- app_assoc. simpl.
      repeat split; [done |]. apply Forall_app. split; [done |].
      by apply Forall_singleton.
Qed.
End Replay.

(** ** Well-formedness *)

Section WellFormed.
Context (sf : string -> gmap string value -> composite) (cfg : config).

Lemma wf_ext s s' : heap s' = heap s -> data s' = data s -> wf s -> wf s'.
Proof. unfold wf. by intros -> ->. Qed.

Lemma ok_del h k (dt : list (Z * loc)) :
  Forall (entry_ok h) dt -> Forall (entry_ok h) (OrdDict.del k dt).
Proof.
  rewrite !Forall_forall. intros H [k' l] Hin.
  apply H. by eapply OrdDictFacts.elem_of_del.
Qed.

Lemma entry_ok_app h d kl : entry_ok h kl -> entry_ok (h ++ [d]) kl.
Proof.
  unfold entry_ok. intros [v Hv]. exists v.
  destruct (h !! kl.2) as [d'|] eqn:Hl; [|done].
  by rewrite (lookup_app_l_Some _ _ _ _ Hl).
Qed.

Lemma new_device_index phs k attrs :
  is_Some (new_device phs k attrs !! "index").
Proof.
  unfold new_device.
  match goal with |- is_Some (foldl ?f ?d0 phs !! _) =>
    assert (is_Some (d0 !! "index")) as H0 by (by rewrite lookup_insert_eq);
    generalize dependent d0 end.
  induction phs as [|ph phs IH]; intros d0 H0; simpl; [done |].
  apply IH. destruct (attrs !! replace "_" "-" ph) as [v|]; [|done].
  match goal with |- context [if ?b then _ else _] => destruct b end;
    rewrite lookup_insert; case_decide; done.
Qed.

(** One step of the loop over the placeholders in [new_device]. *)
Lemma new_device_snoc phs ph k attrs :
  new_device (phs ++ [ph]) k attrs =
    match attrs !! replace "_" "-" ph with
    | Some v =>
        <[ph := if String.eqb v "" then PyNone else PyStr v]>
          (new_device phs k attrs)
    | None => new_device phs k attrs
    end.
Proof.
  unfold new_device. rewrite foldl_app. simpl.
  destruct (attrs !! replace "_" "-" ph) as [v|]; [|done].
  by destruct (String.eqb v "").
Qed.

Lemma new_device_dom phs k attrs key :
  is_Some (new_device phs k attrs !! key) <->
  key = "usbguard_id" \/ key = "index" \/
  (key ∈ phs /\ is_Some (attrs !! replace "_" "-" key)).
Proof.
  induction phs as [|ph phs IH] using rev_ind.
  - unfold new_device; simpl. rewrite !lookup_insert_is_Some, lookup_empty.
    split.
    + intros [<- | [_ [<- | [_ H]]]];
        [by right; left | by left | by apply is_Some_None in H].
    + intros [-> | [-> | [H _]]];
        [right; split; [done | by left] | by left
        | by apply elem_of_nil in H].
  - rewrite new_device_snoc, elem_of_app, list_elem_of_singleton.
    destruct (attrs !! replace "_" "-" ph) as [v|] eqn:Hv.
    + rewrite lookup_insert_is_Some, IH. split.
      * intros [<- | [Hne [-> | [-> | [Hin Hs]]]]];
          [| by left | by right; left | by right; right; split; [left |]].
        right; right. split; [by right | by rewrite Hv].
      * intros H. destruct (decide (ph = key)) as [Heq|Hne]; [by left |].
        right. split; [done |].
        destruct H as [-> | [-> | [[Hin | ->] Hs]]];
          [by left | by right; left | by right; right | done].
    + rewrite IH. split.
      * intros [-> | [-> | [Hin Hs]]];
          [by left | by right; left | by right; right; split; [left |]].
      * intros [-> | [-> | [[Hin | ->] Hs]]];
          [by left | by right; left | by right; right |].
        rewrite Hv in Hs. by apply is_Some_None in Hs.
Qed.

Lemma new_device_value phs k attrs key :
  key ∈ phs ->
  forall v, attrs !! replace "_" "-" key = Some v ->
  new_device phs k attrs !! key =
    Some (if String.eqb v "" then PyNone else PyStr v).
Proof.
  induction phs as [|ph phs IH] using rev_ind;
    [by intros H%elem_of_nil |].
  rewrite elem_of_app, list_elem_of_singleton. intros Hin v Hv.
  rewrite new_device_snoc.
  destruct (decide (key = ph)) as [->|Hne].
  - rewrite Hv. by rewrite lookup_insert_eq.
  - destruct Hin as [Hin | ->]; [|done].
    destruct (attrs !! replace "_" "-" ph);
      rewrite ?lookup_insert_ne by done; by apply IH.
Qed.

Lemma ok_insert h (dt : list (Z * loc)) k d :
  is_Some (d !! "index") ->
  Forall (entry_ok h) dt ->
  Forall (entry_ok (h ++ [d])) (OrdDict.set k (length h) dt).
Proof.
  rewrite !Forall_forall. intros Hd H [k' l] Hin.
  apply OrdDictFacts.elem_of_set in Hin as [[-> ->]|Hin].
  - unfold entry_ok; simpl. by rewrite lookup_app_r, Nat.sub_diag by lia.
  - apply entry_ok_app. by apply H.
Qed.

Lemma ok_setitem h (dt : list (Z * loc)) l key v :
  key <> "index" ->
  Forall (entry_ok h) dt ->
  Forall (entry_ok (<[l := <[key := v]> (default ∅ (h !! l))]> h)) dt.
Proof.
  rewrite !Forall_forall. intros Hk H [k' l'] Hin.
  specialize (H _ Hin). unfold entry_ok in *; simpl in *.
  destruct (decide (l = l')) as [->|Hne].
  - destruct (h !! l') as [d|] eqn:Hl; [|by destruct H].
    rewrite list_lookup_insert_eq by by eapply lookup_lt_Some.
    simpl in *. by rewrite lookup_insert_ne.
  - by rewrite list_lookup_insert_ne.
Qed.

Lemma mapM_ok {A B} (f : A -> M B) xs s :
  (forall x, x ∈ xs -> exists y, f x s = (Ok y, s)) ->
  exists ys, mapM f xs s = (Ok ys, s).
Proof.
  induction xs as [|x xs IH]; intros Hf; simpl; [by eexists |].
  destruct (Hf x) as [y Hy]; [left |].
  destruct IH as [ys Hys]; [intros x' Hx'; apply Hf; by right |].
  exists (y :: ys). unfold bind. by rewrite Hy, Hys.
Qed.

Lemma manipulate_devices_ok s :
  wf s -> exists c, _manipulate_devices sf cfg s = (Ok c, s).
Proof.
  intros Hwf. unfold _manipulate_devices.
  unfold bind at 1. unfold gets at 1. cbv beta iota. unfold bind at 1.
  match goal with |- context [mapM ?f ?xs ?t] =>
    destruct (mapM_ok f xs t) as [ys Hys] end.
  - intros k Hk. apply OrdDictFacts.get_is_Some in Hk as [l Hl].
    pose proof (OrdDictFacts.get_elem_of _ _ _ Hl) as Hin.
    unfold wf in Hwf. rewrite Forall_forall in Hwf.
    specialize (Hwf _ Hin). unfold entry_ok in Hwf; simpl in Hwf.
    destruct (heap s !! l) as [d|] eqn:Hd; [|by destruct Hwf].
    simpl in Hwf. destruct Hwf as [v Hv].
    unfold bind, data_getitem, deref, gets, dict_getitem. rewrite Hl, Hd.
    simpl. rewrite Hv. by eexists.
  - rewrite Hys. by eexists.
Qed.

Lemma manipulate_devices_nil s :
  data s = [] -> _manipulate_devices sf cfg s = (Ok [], s).
Proof.
  intros H. unfold _manipulate_devices, bind, gets. by rewrite H.
Qed.

Lemma refresh_ok s :
  wf s ->
  exists c,
    refresh sf cfg s = (Ok tt, set_new_data (Some c) s) /\
    (data s = [] -> c = []).
Proof.
  intros H. destruct (manipulate_devices_ok s H) as [c Hc].
  exists c. split; [by rewrite refresh_unfold, Hc |].
  intros Hnil. rewrite (manipulate_devices_nil s Hnil) in Hc. congruence.
Qed.

Lemma refresh_nil s :
  data s = [] -> refresh sf cfg s = (Ok tt, set_new_data (Some []) s).
Proof. intros H. by rewrite refresh_unfold, manipulate_devices_nil. Qed.
End WellFormed.

(** ** Reasoning about monadic code *)

Section Hoare.
Context (sf : string -> gmap string value -> composite) (cfg : config).

Lemma post_bind {A B} (m : M A) (k : A -> M B) P R Q :
  post m P R -> (forall s, R s -> Q s) -> (forall a, post (k a) R Q) ->
  post (bind m k) P Q.
Proof.
  intros Hm HRQ Hk s HP. unfold bind. specialize (Hm s HP).
  destruct (m s) as [[a|e] s1]; simpl in *; [by apply Hk | by apply HRQ].
Qed.

(** The usual case: an invariant. *)
Lemma post_bind_inv {A B} (m : M A) (k : A -> M B) I :
  post m I I -> (forall a, post (k a) I I) -> post (bind m k) I I.
Proof. intros Hm Hk. by apply (post_bind m k I I I). Qed.

Lemma post_read_only {A} (m : M A) I : read_only m -> post m I I.
Proof. intros Hm s HI. by rewrite Hm. Qed.

Lemma post_ret {A} (a : A) I : post (ret a) I I.
Proof. by intros s. Qed.

Lemma post_raise {A} e I : post (@raise A e) I I.
Proof. by intros s. Qed.

Lemma post_modify f (P Q : state -> Prop) :
  (forall s, P s -> Q (f s)) -> post (modify f) P Q.
Proof. intros H s HP. by apply H. Qed.

Lemma post_weaken {A} (m : M A) (P P' Q Q' : state -> Prop) :
  post m P Q -> (forall s, P' s -> P s) -> (forall s, Q s -> Q' s) ->
  post m P' Q'.
Proof. intros Hm HP HQ s Hs. apply HQ, Hm, HP, Hs. Qed.

Lemma frame_refl s : frame s s.
Proof.
  repeat split; try done. exists []. by rewrite app_nil_r.
Qed.

Lemma frame_trans s1 s2 s3 : frame s1 s2 -> frame s2 s3 -> frame s1 s3.
Proof.
  intros (Hp1 & He1 & Hh1 & Hw1 & Hn1 & n1 & Hl1 & Hf1)
         (Hp2 & He2 & Hh2 & Hw2 & Hn2 & n2 & Hl2 & Hf2).
  repeat split; try congruence; [tauto | tauto |].
  exists (n1 ++ n2). split; [by rewrite Hl2, Hl1, app_assoc |].
  apply Forall_app. split; [done |].
  by rewrite <- Hp1.
Qed.

(** A step that is framed from every state keeps [frame s0]. *)
Lemma post_frame {A} (m : M A) s0 :
  (forall s, frame s (m s).2) -> post m (frame s0) (frame s0).
Proof. intros H s Hs. eapply frame_trans; [exact Hs | apply H]. Qed.

Lemma frame_emit e s :
  is_policy_call e = false -> frame s (emit e s).2.
Proof.
  intros He. repeat split; try done. exists [e]. split; [done |].
  apply Forall_singleton. by intros k t b ->.
Qed.

Lemma frame_heap_setitem l key v s :
  key <> "index" -> frame s (heap_setitem l key v s).2.
Proof.
  intros Hk. repeat split; try done.
  - intros Hwf. unfold wf; simpl. by apply ok_setitem.
  - exists []. by rewrite app_nil_r.
Qed.

Lemma frame_data_delitem k s : frame s (data_delitem k s).2.
Proof.
  unfold data_delitem. destruct (OrdDict.mem k (data s)); simpl;
    [|apply frame_refl].
  repeat split; try done.
  - intros Hwf. unfold wf; simpl. by apply ok_del.
  - simpl. apply OrdDictFacts.NoDup_del.
  - exists []. by rewrite app_nil_r.
Qed.

Lemma frame_refresh s : frame s (refresh sf cfg s).2.
Proof.
  rewrite refresh_unfold.
  destruct (_manipulate_devices sf cfg s).1; simpl; [|apply frame_refl].
  repeat split; try done. exists []. by rewrite app_nil_r.
Qed.

Lemma frame_insert k d s :
  is_Some (d !! "index") ->
  frame s ((do l <- heap_alloc d; data_setitem k l) s).2.
Proof.
  intros Hd. repeat split; try done.
  - intros Hwf. unfold wf; simpl. by apply ok_insert.
  - simpl. apply OrdDictFacts.NoDup_set.
  - exists []. by rewrite app_nil_r.
Qed.

Lemma frame_applyDevicePolicy k t rpc_ok s :
  frame s ((do permanent <- gets is_permanant;
            applyDevicePolicy k t permanent rpc_ok) s).2.
Proof.
  unfold bind, gets, applyDevicePolicy, emit, modify, ret, raise; simpl.
  assert (frame s
    {| heap := heap s; data := data s; new_data := new_data s;
       is_permanant := is_permanant s; error := error s;
       placeholders := placeholders s;
       log := log s ++ [ApplyDevicePolicy k t (is_permanant s)] |}).
  { repeat split; try done. eexists; split; [done |].
    apply Forall_singleton. by intros k' t' b [= _ _ ->]. }
  by destruct rpc_ok.
Qed.

Lemma frame_init_dbus ok s :
  is_permanant (_init_dbus ok s).2 = is_permanant s /\
  placeholders (_init_dbus ok s).2 = placeholders s /\
  heap (_init_dbus ok s).2 = heap s /\
  data (_init_dbus ok s).2 = data s /\
  new_data (_init_dbus ok s).2 = new_data s /\
  log (_init_dbus ok s).2 = log s.
Proof. by destruct ok. Qed.
End Hoare.

(** ** The click dispatcher *)

Section Dispatch.
Context (sf : string -> gmap string value -> composite) (cfg : config).

Ltac mstep :=
  unfold bind, ret, raise, gets, modify, emit, data_getitem, data_delitem,
    heap_setitem, deref, applyDevicePolicy, dict_getitem; simpl.

Lemma guard_int k :
  k <> 0%Z -> forall act,
  truthy (PyStr (action_name act)) && truthy (PyInt k)
    && negb (bool_decide (PyInt k = PyStr "sep")) = true.
Proof.
  intros Hk act. simpl. destruct (Z.eqb_spec k 0); [done |].
  by destruct act.
Qed.

(** A falsy index or the separator tag: nothing happens. *)
Lemma set_policy_skip act index rpc_ok s :
  truthy index = false \/ index = PyStr "sep" ->
  _set_policy sf cfg act index rpc_ok s = (Ok tt, s).
Proof.
  intros [H | ->]; unfold _set_policy.
  - rewrite H. by rewrite andb_false_r.
  - by rewrite andb_false_r.
Qed.

Lemma policy_calls_app l1 l2 :
  policy_calls (l1 ++ l2) = policy_calls l1 ++ policy_calls l2.
Proof. apply filter_app. Qed.

(** Block on a pending device: the entry is deleted at once, the
    device list is rebuilt and the daemon is not called. *)
Lemma set_policy_block k rpc_ok s :
  wf s -> k <> 0%Z -> k ∈ OrdDict.keys (data s) ->
  exists s' c,
    _set_policy sf cfg Block (PyInt k) rpc_ok s = (Ok tt, s') /\
    data s' = OrdDict.del k (data s) /\
    new_data s' = Some c /\ (data s' = [] -> c = []) /\
    policy_calls (log s') = policy_calls (log s).
Proof.
  intros Hwf Hk Hin. unfold _set_policy. rewrite (guard_int k Hk Block).
  apply OrdDictFacts.get_is_Some in Hin as [l Hl].
  pose proof (OrdDictFacts.get_elem_of _ _ _ Hl) as Hel.
  pose proof Hwf as Hwf'. unfold wf in Hwf'. rewrite Forall_forall in Hwf'.
  specialize (Hwf' _ Hel). unfold entry_ok in Hwf'; simpl in Hwf'.
  destruct (heap s !! l) as [d|] eqn:Hd; [|by destruct Hwf'].
  simpl in Hwf'. destruct Hwf' as [v Hv].
  destruct (truthy (PyStr (format_notification cfg))) eqn:Hfmt.
  - mstep. rewrite Hl; simpl. rewrite Hl; simpl. rewrite Hd; simpl.
    rewrite list_lookup_insert_eq by by eapply lookup_lt_Some. simpl.
    rewrite bool_decide_eq_false_2 by apply insert_non_empty. simpl.
    unfold OrdDict.mem. rewrite Hl; simpl.
    match goal with |- context [refresh sf cfg ?t] =>
      destruct (refresh_ok sf cfg t) as (c & Hc & Hnil) end.
    { unfold wf; simpl. apply ok_del.
      pose proof (ok_setitem _ _ l "action" (PyStr "block") ltac:(done) Hwf) as H.
      by rewrite Hd in H. }
    rewrite Hc. eexists _, c; split; [done |]. repeat split; [done |].
    simpl. rewrite policy_calls_app. simpl. apply app_nil_r.
  - mstep. rewrite Hl; simpl. rewrite Hd; simpl.
    rewrite bool_decide_eq_false_2 by (intros ->; by rewrite lookup_empty in Hv).
    simpl. unfold OrdDict.mem. rewrite Hl; simpl.
    match goal with |- context [refresh sf cfg ?t] =>
      destruct (refresh_ok sf cfg t) as (c & Hc & Hnil) end.
    { unfold wf; simpl. by apply ok_del. }
    rewrite Hc. by eexists _, c.
Qed.

(** Allow or reject on a pending device: one daemon call carrying the
    target code and the current permanent flag; the registry keeps the
    entry, and a failing call surfaces as the raised exception. *)
Lemma set_policy_grant act k rpc_ok s :
  act <> Block -> k <> 0%Z -> k ∈ OrdDict.keys (data s) ->
  exists s',
    _set_policy sf cfg act (PyInt k) rpc_ok s =
      (if rpc_ok then Ok tt else Raise DaemonError, s') /\
    data s' = data s /\
    new_data s' = new_data s /\
    is_permanant s' = is_permanant s /\
    policy_calls (log s') =
      policy_calls (log s) ++
      [ApplyDevicePolicy k (targets act) (is_permanant s)].
Proof.
  intros Hact Hk Hin. unfold _set_policy. rewrite (guard_int k Hk act).
  apply OrdDictFacts.get_is_Some in Hin as [l Hl].
  destruct (truthy (PyStr (format_notification cfg))) eqn:Hfmt;
    destruct act; try done; mstep; rewrite ?Hl; simpl;
    destruct rpc_ok; simpl; eexists; (split; [reflexivity |]); simpl;
    rewrite ?policy_calls_app; simpl; rewrite ?app_nil_r; done.
Qed.

(** An id that is not in the registry, with a notification format
    configured: the lookup [self.data[index]] raises. *)
Lemma set_policy_absent_notify act k rpc_ok s :
  k <> 0%Z -> k ∉ OrdDict.keys (data s) ->
  truthy (PyStr (format_notification cfg)) = true ->
  _set_policy sf cfg act (PyInt k) rpc_ok s = (Raise KeyError, s).
Proof.
  intros Hk Hin Hfmt. unfold _set_policy.
  rewrite (guard_int k Hk act), Hfmt.
  apply OrdDictFacts.mem_false_keys in Hin. unfold OrdDict.mem in Hin.
  mstep. by destruct (OrdDict.get k (data s)).
Qed.

(** The same without a notification format: block raises, allow and
    reject call the daemon for the unknown id. *)
Lemma set_policy_absent_quiet act k rpc_ok s :
  k <> 0%Z -> k ∉ OrdDict.keys (data s) ->
  truthy (PyStr (format_notification cfg)) = false ->
  _set_policy sf cfg act (PyInt k) rpc_ok s =
    match act with
    | Block => (Raise KeyError, s)
    | _ =>
        (if rpc_ok then Ok tt else Raise DaemonError,
         (emit (ApplyDevicePolicy k (targets act) (is_permanant s)) s).2)
    end.
Proof.
  intros Hk Hin Hfmt. unfold _set_policy.
  rewrite (guard_int k Hk act), Hfmt.
  apply OrdDictFacts.mem_false_keys in Hin. unfold OrdDict.mem in Hin.
  destruct act; mstep; try by destruct rpc_ok.
  by destruct (OrdDict.get k (data s)).
Qed.

(** [on_click] dispatches to [_set_policy] or does nothing. *)
Lemma on_click_cases button index rpc_ok s :
  on_click sf cfg button index rpc_ok s = (Ok tt, s) \/
  exists act,
    on_click sf cfg button index rpc_ok s =
      _set_policy sf cfg act index rpc_ok s.
Proof.
  unfold on_click. repeat case_bool_decide; eauto.
Qed.
Lemma read_only_deref l : read_only (deref l).
Proof. apply read_only_gets. Qed.

Lemma post_del_refresh k s0 :
  post (exec data_delitem k; refresh sf cfg) (frame s0) (frame s0).
Proof.
  apply post_bind_inv; [|intros _]; apply post_frame; intros.
  - apply frame_data_delitem.
  - apply frame_refresh.
Qed.

(** [_set_policy] keeps the frame, whatever its arguments. *)
Lemma set_policy_post act index rpc_ok s0 :
  post (_set_policy sf cfg act index rpc_ok) (frame s0) (frame s0).
Proof.
  unfold _set_policy.
  destruct (_ && _ && _); [|apply post_ret].
  apply post_bind_inv.
  - destruct (truthy (PyStr (format_notification cfg))); [|apply post_ret].
    destruct index; try apply post_raise.
    apply post_bind_inv;
      [apply post_read_only, read_only_data_getitem | intros l].
    apply post_bind_inv;
      [apply post_frame; intros; by apply frame_heap_setitem | intros _].
    apply post_bind_inv; [apply post_read_only, read_only_deref | intros d].
    apply post_frame; intros; by apply frame_emit.
  - intros _.
    destruct act, index;
      try (apply post_raise);
      try (apply post_frame; intros; apply frame_applyDevicePolicy);
      try (apply post_bind_inv;
             [apply post_read_only, read_only_gets
             | intros; apply post_raise]).
    apply post_bind_inv;
      [apply post_read_only, read_only_data_getitem | intros l].
    apply post_bind_inv; [apply post_read_only, read_only_deref | intros d].
    destruct (negb _); [apply post_del_refresh | apply post_ret].
Qed.

Lemma set_policy_frame act index rpc_ok s :
  frame s (_set_policy sf cfg act index rpc_ok s).2.
Proof. apply set_policy_post, frame_refl. Qed.

Lemma on_click_frame button index rpc_ok s :
  frame s (on_click sf cfg button index rpc_ok s).2.
Proof.
  destruct (on_click_cases button index rpc_ok s) as [-> | [act ->]];
    [apply frame_refl | apply set_policy_frame].
Qed.

(** The presence handler keeps the frame. *)
Lemma presence_post event s0 :
  post (_on_devices_presence_changed sf cfg event) (frame s0) (frame s0).
Proof.
  unfold _on_devices_presence_changed.
  apply post_bind_inv; [|intros _; apply post_bind_inv; [|intros _]].
  - destruct (p_state event =? 1)%Z.
    + destruct (str_in _ _); [|apply post_ret].
      apply post_bind_inv; [apply post_read_only, read_only_gets | intros phs].
      apply post_frame; intros. apply frame_insert, new_device_index.
    + apply post_bind_inv; [apply post_read_only, read_only_gets | intros b].
      destruct b; [|apply post_ret].
      apply post_frame; intros; apply frame_data_delitem.
  - apply post_frame; intros; apply frame_refresh.
  - apply post_frame; intros; by apply frame_emit.
Qed.

Lemma policy_loop_post actions k perms s0 :
  post (policy_loop sf cfg actions k perms) (frame s0) (frame s0).
Proof.
  induction actions as [|a actions IH]; simpl; [apply post_ret |].
  destruct (str_in a perms); [|done].
  apply post_bind_inv; [apply post_read_only, read_only_gets | intros b].
  destruct b; [apply post_del_refresh | done].
Qed.

(** The policy handler keeps the frame. *)
Lemma policy_post event s0 :
  post (_on_devices_policy_changed sf cfg event) (frame s0) (frame s0).
Proof.
  unfold _on_devices_policy_changed.
  apply post_bind_inv; [apply policy_loop_post | intros _].
  apply post_frame; intros; by apply frame_emit.
Qed.

Lemma signal_fired_frame sig s : frame s (signal_fired sf cfg sig s).2.
Proof.
  destruct sig; [apply presence_post | apply policy_post]; apply frame_refl.
Qed.
(** ** The stored device list follows the registry *)

Lemma synced_view s s' :
  data s' = data s -> new_data s' = new_data s -> synced s -> synced s'.
Proof. unfold synced. by intros -> ->. Qed.

Lemma set_policy_synced act index rpc_ok s :
  wf s -> synced s -> synced (_set_policy sf cfg act index rpc_ok s).2.
Proof.
  intros Hwf Hs.
  destruct index as [|k|str].
  - by rewrite set_policy_skip by by left.
  - destruct (decide (k = 0%Z)) as [->|Hk];
      [by rewrite set_policy_skip by by left |].
    destruct (decide (k ∈ OrdDict.keys (data s))) as [Hin|Hin].
    + destruct (decide (act = Block)) as [->|Hact].
      * destruct (set_policy_block k rpc_ok s Hwf Hk Hin)
          as (s' & c & -> & _ & Hnd & Hnil & _).
        intros Hd. right. simpl. by rewrite Hnd, Hnil.
      * destruct (set_policy_grant act k rpc_ok s Hact Hk Hin)
          as (s' & -> & Hd & Hnd & _).
        by apply (synced_view s).
    + destruct (truthy (PyStr (format_notification cfg))) eqn:Hfmt.
      * by rewrite set_policy_absent_notify.
      * rewrite set_policy_absent_quiet by done.
        by destruct act, rpc_ok.
  - unfold _set_policy. destruct (_ && _ && _); [|done].
    destruct (truthy (PyStr (format_notification cfg))); [done |].
    by destruct act.
Qed.

Lemma on_click_synced button index rpc_ok s :
  wf s -> synced s -> synced (on_click sf cfg button index rpc_ok s).2.
Proof.
  intros Hwf Hs.
  destruct (on_click_cases button index rpc_ok s) as [-> | [act ->]];
    [done | by apply set_policy_synced].
Qed.

Lemma refresh_synced s : wf s -> synced (refresh sf cfg s).2.
Proof.
  intros Hwf. destruct (refresh_ok sf cfg s Hwf) as (c & -> & Hnil).
  intros Hd. right. simpl in *. by rewrite Hnil.
Qed.

Lemma presence_synced event s :
  wf s -> synced (_on_devices_presence_changed sf cfg event s).2.
Proof.
  intros Hwf. unfold _on_devices_presence_changed.
  set (body := if (p_state event =? 1)%Z then _ else _).
  assert (exists s1, body s = (Ok tt, s1) /\ wf s1) as (s1 & Hb & Hwf1).
  { pose proof (frame_refl s) as Hf. subst body.
    destruct (p_state event =? 1)%Z.
    - destruct (str_in _ _); [|by eexists].
      eexists; split; [reflexivity |].
      unfold wf; simpl. by apply ok_insert, Hwf; apply new_device_index.
    - unfold bind, gets, data_delitem; simpl.
      destruct (OrdDict.mem (p_id event) (data s)) eqn:Hm; simpl;
        rewrite ?Hm; [|by eexists].
      eexists; split; [reflexivity |]. unfold wf; simpl. by apply ok_del. }
  unfold bind at 1. rewrite Hb. unfold bind.
  destruct (refresh_ok sf cfg s1 Hwf1) as (c & -> & Hnil). simpl.
  intros Hd. right. simpl in *. by rewrite Hnil.
Qed.

Lemma policy_loop_synced actions k perms s :
  wf s -> synced s -> synced (policy_loop sf cfg actions k perms s).2.
Proof.
  intros Hwf Hs. induction actions as [|a actions IH]; simpl; [done |].
  destruct (str_in a perms); [|done].
  unfold bind, gets, data_delitem; simpl.
  destruct (OrdDict.mem k (data s)) eqn:Hm; simpl; rewrite ?Hm; [|done].
  match goal with |- context [refresh sf cfg ?t] =>
    destruct (refresh_ok sf cfg t) as (c & -> & Hnil) end.
  { unfold wf; simpl. by apply ok_del. }
  intros Hd. right. simpl in *. by rewrite Hnil.
Qed.

Lemma policy_synced event s :
  wf s -> synced s -> synced (_on_devices_policy_changed sf cfg event s).2.
Proof.
  intros Hwf Hs. unfold _on_devices_policy_changed.
  pose proof (policy_loop_synced ["allow id"; "reject id"] (p_id event)
                (p_perms event) s Hwf Hs) as H.
  unfold bind.
  destruct (policy_loop sf cfg _ _ _ s) as [[[]|e] s1]; simpl in *; done.
Qed.

Lemma signal_fired_synced sig s :
  wf s -> synced s -> synced (signal_fired sf cfg sig s).2.
Proof.
  destruct sig; simpl; [intros; by apply presence_synced | apply policy_synced].
Qed.
End Dispatch.

(** ** Invariants of the reachable states *)

Section Invariants.
Context (sf : string -> gmap string value -> composite)
        (gpl : string -> list string) (cfg : config).

Lemma frame_no_permanent s s' :
  frame s s' ->
  is_permanant s = false ->
  Forall (fun e => permanent_call e = false) (log s) ->
  is_permanant s' = false /\
  Forall (fun e => permanent_call e = false) (log s').
Proof.
  intros (Hp & _ & _ & _ & _ & new & Hl & Hnew) Hs Hlog.
  split; [congruence |]. rewrite Hl. apply Forall_app. split; [done |].
  eapply Forall_impl; [exact Hnew |]. simpl. intros e He.
  destruct e as [msg | k t b |]; try done. simpl.
  by rewrite (He k t b eq_refl).
Qed.

(** No id appears twice in the registry of a reachable state. *)
Lemma reachable_NoDup s :
  reachable sf gpl cfg s -> NoDup (OrdDict.keys (data s)).
Proof.
  induction 1 as [ok | s ok _ IH | s sig _ IH | s b i r _ IH].
  - destruct ok; constructor.
  - by destruct ok.
  - by apply (signal_fired_frame sf cfg sig s).
  - by apply (on_click_frame sf cfg b i r s).
Qed.

(** Every reachable state is well-formed, its stored device list
    follows the registry, and the permanent flag was never set. *)
Lemma reachable_inv s :
  reachable sf gpl cfg s ->
  wf s /\ synced s /\ is_permanant s = false /\
  Forall (fun e => permanent_call e = false) (log s).
Proof.
  induction 1 as [ok | s ok _ IH | s sig _ IH | s b i r _ IH].
  - destruct ok;
      (split; [constructor |]);
      (split; [intros _; by left |]);
      (split; [done | constructor]).
  - destruct IH as (Hwf & Hs & Hp & Hl).
    destruct (frame_init_dbus ok s) as (E1 & E2 & E3 & E4 & E5 & E6).
    repeat split.
    + unfold wf. by rewrite E3, E4.
    + unfold synced. by rewrite E4, E5.
    + congruence.
    + by rewrite E6.
  - destruct IH as (Hwf & Hs & Hp & Hl).
    pose proof (signal_fired_frame sf cfg sig s) as Hf.
    destruct (frame_no_permanent _ _ Hf Hp Hl).
    repeat split; try done.
    + by apply Hf.
    + by apply signal_fired_synced.
  - destruct IH as (Hwf & Hs & Hp & Hl).
    pose proof (on_click_frame sf cfg b i r s) as Hf.
    destruct (frame_no_permanent _ _ Hf Hp Hl).
    repeat split; try done.
    + by apply Hf.
    + by apply on_click_synced.
Qed.
End Invariants.

(** ** The claims of the specification *)

Section Claims.
Context (sf : string -> gmap string value -> composite) (cfg : config).

(** C1: for every finite sequence of decoded insertion, removal and
    policy-change signals replayed by the listener handlers on an
    initially empty registry, the registry holds exactly the ids whose
    last event is an insertion, that is an insertion not followed by a
    removal or by a policy change granting allow or reject for that id. *)
Theorem replay_registry_pending (sigs : list signal) (s0 : state) (id : Z) :
  data s0 = [] ->
  Forall (fun sig => is_Some (spec_decode sig)) sigs ->
  id ∈ OrdDict.keys (data (replay sf cfg sigs s0)) <->
  ends_pending id (omap spec_decode sigs).
Proof.
  intros Hempty. induction sigs as [|sig sigs IH] using rev_ind; intros Hdec.
  - simpl. rewrite Hempty. split; [intros H; inversion H |].
    intros H. by apply ends_pending_nil in H.
  - apply Forall_app in Hdec as [Hsigs Hsig].
    apply Forall_singleton in Hsig as [ev Hev].
    rewrite replay_snoc, omap_app. simpl. rewrite Hev. simpl.
    rewrite (signal_fired_keys sf cfg _ _ _ _ Hev), ends_pending_snoc, (IH Hsigs).
    done.
Qed.
(** C2, as the code has it: for every device id other than 0 that is
    in the registry, dispatching block deletes the entry at once and
    calls the daemon not at all; dispatching allow or reject issues
    exactly one [applyDevicePolicy] call (target 0 for allow, 2 for
    reject) and keeps the entry, which a later policy-change signal
    granting that action for the id removes. *)
Theorem dispatch_pending_nonzero (s : state) (k : Z) (rpc_ok : bool) :
  wf s -> k <> 0%Z -> k ∈ OrdDict.keys (data s) ->
  (exists s',
     _set_policy sf cfg Block (PyInt k) rpc_ok s = (Ok tt, s') /\
     (k ∉ OrdDict.keys (data s')) /\
     policy_calls (log s') = policy_calls (log s)) /\
  (forall act target, (act, target) ∈ [(Allow, 0%Z); (Reject, 2%Z)] ->
     let s' := (_set_policy sf cfg act (PyInt k) rpc_ok s).2 in
     k ∈ OrdDict.keys (data s') /\
     policy_calls (log s') =
       policy_calls (log s) ++
       [ApplyDevicePolicy k target (is_permanant s)] /\
     forall event,
       p_id event = k ->
       str_in (action_name act +:+ " id") (p_perms event) = true ->
       k ∉ OrdDict.keys
             (data (_on_devices_policy_changed sf cfg event s').2)).
Proof.
  intros Hwf Hk Hin. split.
  - destruct (set_policy_block sf cfg k rpc_ok s Hwf Hk Hin)
      as (s' & c & Hrun & Hd & _ & _ & Hlog).
    exists s'. split; [done |]. split; [|done].
    rewrite Hd, OrdDictFacts.keys_del. tauto.
  - intros act target Hact.
    assert (act <> Block /\ target = targets act) as [Hnb ->].
    { rewrite !elem_of_cons in Hact.
      destruct Hact as [[= -> ->] | [[= -> ->] | H]];
        [done | done | by apply elem_of_nil in H]. }
    destruct (set_policy_grant sf cfg act k rpc_ok s Hnb Hk Hin)
      as (s' & Hrun & Hd & _ & _ & Hlog).
    rewrite Hrun. simpl. split; [by rewrite Hd |].
    split; [done |]. intros event Hid Hperm.
    rewrite policy_data.
    destruct act; try done; cbv [action_name String.append] in Hperm;
      rewrite Hperm, ?orb_true_r; simpl;
      rewrite OrdDictFacts.keys_del; intros [Hne _]; congruence.
Qed.
(** C5, as the code has it: when the daemon's [applyDevicePolicy] call
    fails on an allow or reject dispatch for a pending device, the
    exception propagates out of [_set_policy] to its caller, and the
    registry still holds the device, so that the user can click again. *)
Theorem daemon_failure_propagates (s : state) (act : action) (k : Z) :
  act <> Block -> k <> 0%Z -> k ∈ OrdDict.keys (data s) ->
  (_set_policy sf cfg act (PyInt k) false s).1 = Raise DaemonError /\
  data (_set_policy sf cfg act (PyInt k) false s).2 = data s /\
  k ∈ OrdDict.keys (data (_set_policy sf cfg act (PyInt k) false s).2).
Proof.
  intros Hact Hk Hin.
  destruct (set_policy_grant sf cfg act k false s Hact Hk Hin)
    as (s' & -> & Hd & _). simpl. by rewrite Hd.
Qed.

(** C10: a click whose index is the integer 0 does nothing at all,
    whatever the button: no daemon call, no notification, no change of
    the registry or of any other part of the state, and no exception.
    A pending device with id 0 is therefore out of reach of clicks. *)
Theorem click_index_zero_ignored (button : Z) (act : action)
    (rpc_ok : bool) (s : state) :
  _set_policy sf cfg act (PyInt 0) rpc_ok s = (Ok tt, s) /\
  on_click sf cfg button (PyInt 0) rpc_ok s = (Ok tt, s).
Proof.
  assert (H : forall a, _set_policy sf cfg a (PyInt 0) rpc_ok s = (Ok tt, s))
    by (intros a; apply set_policy_skip; by left).
  split; [apply H |].
  destruct (on_click_cases sf cfg button (PyInt 0) rpc_ok s)
    as [-> | [a ->]]; [done | apply H].
Qed.
End Claims.

Section ClaimsReachable.
Context (sf : string -> gmap string value -> composite)
        (gpl : string -> list string) (cfg : config).

(** C8: in every reachable state the response of [usbguard] has the
    urgency flag set, also when the registry is empty, and then its
    device list is empty: the text formatted from an empty
    [format_device], or the composite formatted from an empty device
    list.  The render raises only the recorded connection error. *)
Theorem render_always_urgent (s : state) :
  reachable sf gpl cfg s ->
  match usbguard sf cfg s with
  | (Ok r, s') =>
      s' = s /\ error s = None /\ urgent r = true /\
      (data s = [] ->
       r = Response CACHE_FOREVER true None
             (Some (sf (format cfg)
                      {[ "format_device" := Scalar (PyStr "") ]})) \/
       r = Response CACHE_FOREVER true
             (Some (sf (format cfg) {[ "format_device" := Composite [] ]}))
             None)
  | (Raise e, s') =>
      s' = s /\ exists msg, error s = Some msg /\ e = ModuleError msg
  end.
Proof.
  intros Hr. destruct (reachable_inv sf gpl cfg s Hr) as (_ & Hs & _).
  unfold usbguard, bind, gets, ret, raise; simpl.
  destruct (error s) as [msg|]; simpl; [by eauto |].
  destruct (new_data s) as [c|] eqn:Hnd; simpl.
  - repeat split. intros Hd. right.
    destruct (Hs Hd) as [H | H]; [congruence |].
    rewrite Hnd in H. by injection H as ->.
  - repeat split. intros _. by left.
Qed.

(** C9, as the code has it: the permanent flag is false when the
    module starts; every [applyDevicePolicy] call issued by a click
    carries the value the flag has at that moment; [_toggle_permanant]
    negates the flag, but no click changes it. *)
Theorem permanent_flag_only_toggled (s : state) (button : Z)
    (index : scalar) (rpc_ok ok : bool) :
  is_permanant (post_config_hook gpl cfg ok) = false /\
  is_permanant (_toggle_permanant s).2 = negb (is_permanant s) /\
  is_permanant (on_click sf cfg button index rpc_ok s).2 = is_permanant s /\
  exists new,
    log (on_click sf cfg button index rpc_ok s).2 = log s ++ new /\
    Forall (carries (is_permanant s)) new.
Proof.
  split; [by destruct ok |]. split; [done |].
  destruct (on_click_frame sf cfg button index rpc_ok s)
    as (Hp & _ & _ & _ & _ & new & Hl & Hnew).
  split; [done |]. by exists new.
Qed.
End ClaimsReachable.

(** ** The claims on the sample configuration *)

Lemma replay_registry_pending_witness :
  let sigs := [DevicePresenceChanged mass_storage;
               DevicePolicyChanged mass_storage_allowed;
               DevicePresenceChanged card_reader] in
  data sample_start = [] /\
  Forall (fun sig => is_Some (spec_decode sig)) sigs /\
  (7%Z ∈ OrdDict.keys
          (data (replay sample_format default_config sigs sample_start)) <->
   ends_pending 7 (omap spec_decode sigs)).
Proof.
  intros sigs.
  assert (H1 : data sample_start = []) by reflexivity.
  assert (H2 : Forall (fun sig => is_Some (spec_decode sig)) sigs)
    by (repeat constructor; vm_compute; by eexists).
  exact (conj H1 (conj H2
    (replay_registry_pending sample_format default_config sigs
       sample_start 7 H1 H2))).
Defined.

(** C2 as stated fails for the id 0: the device is in the registry, yet
    dispatching block leaves its entry in place, and dispatching allow
    issues no daemon call. *)
Lemma dispatch_id_zero_untouched :
  let s := replay sample_format default_config
             [DevicePresenceChanged first_device] sample_start in
  0%Z ∈ OrdDict.keys (data s) /\
  0%Z ∈ OrdDict.keys
         (data (_set_policy sample_format default_config Block (PyInt 0)
                  true s).2) /\
  policy_calls
    (log (_set_policy sample_format default_config Allow (PyInt 0) true s).2)
  = [].
Proof. vm_compute. repeat split; by left. Qed.

Lemma dispatch_pending_nonzero_witness :
  wf sample_pending /\ 42%Z <> 0%Z /\
  42%Z ∈ OrdDict.keys (data sample_pending) /\
  (exists s',
     _set_policy sample_format default_config Block (PyInt 42) true
       sample_pending = (Ok tt, s') /\
     (42%Z ∉ OrdDict.keys (data s')) /\
     policy_calls (log s') = policy_calls (log sample_pending)).
Proof.
  assert (H1 : wf sample_pending)
    by (apply (bool_decide_unpack _); vm_compute; exact I).
  assert (H2 : 42%Z <> 0%Z) by lia.
  assert (H3 : 42%Z ∈ OrdDict.keys (data sample_pending))
    by (vm_compute; left).
  exact (conj H1 (conj H2 (conj H3
    (proj1 (dispatch_pending_nonzero sample_format default_config
              sample_pending 42 true H1 H2 H3))))).
Defined.

(** C3: a click on an id that is not in the registry.  With the default
    notification format the lookup [self.data[index]] raises [KeyError];
    without a notification format, allow calls the daemon for the unknown
    id and block raises [KeyError]. *)
Theorem stale_click_not_ignored :
  on_click sample_format default_config 1 (PyInt 42) true sample_start
    = (Raise KeyError, sample_start) /\
  (42%Z ∉ OrdDict.keys (data sample_start)) /\
  (let start := post_config_hook sample_placeholders quiet_config true in
   (on_click sample_format quiet_config 3 (PyInt 42) true start).1
     = Raise KeyError /\
   log (on_click sample_format quiet_config 1 (PyInt 42) true start).2
     = [ApplyDevicePolicy 42 0 false]).
Proof.
  split; [by vm_compute |]. split; [|by vm_compute].
  vm_compute. intros H. inversion H.
Qed.

(** C4: a presence signal with state code 2, which the specification's
    decoder ignores, deletes the registry entry of the device. *)
Theorem update_signal_deletes_entry :
  let sig := DevicePresenceChanged mass_storage_update in
  spec_decode sig = None /\
  OrdDict.keys (data sample_pending) = [42%Z] /\
  OrdDict.keys
    (data (signal_fired sample_format default_config sig sample_pending).2)
  = [].
Proof. by vm_compute. Qed.

(** C5 as stated fails: the failure of the daemon call is raised to the
    caller of [on_click]. *)
Lemma daemon_failure_reaches_caller :
  (on_click sample_format default_config 1 (PyInt 42) false sample_pending).1
  = Raise DaemonError.
Proof. by vm_compute. Qed.

Lemma daemon_failure_propagates_witness :
  Allow <> Block /\ 42%Z <> 0%Z /\
  42%Z ∈ OrdDict.keys (data sample_pending) /\
  (_set_policy sample_format default_config Allow (PyInt 42) false
     sample_pending).1 = Raise DaemonError /\
  data (_set_policy sample_format default_config Allow (PyInt 42) false
          sample_pending).2 = data sample_pending /\
  42%Z ∈ OrdDict.keys
          (data (_set_policy sample_format default_config Allow (PyInt 42)
                   false sample_pending).2).
Proof.
  assert (H1 : Allow <> Block) by discriminate.
  assert (H2 : 42%Z <> 0%Z) by lia.
  assert (H3 : 42%Z ∈ OrdDict.keys (data sample_pending))
    by (vm_compute; left).
  exact (conj H1 (conj H2 (conj H3
    (daemon_failure_propagates sample_format default_config
       sample_pending Allow 42 H1 H2 H3)))).
Defined.

(** C6: an allow click writes the ['action'] key into the device dict
    that the registry refers to; the entry is neither replaced (the
    registry holds the same reference) nor removed. *)
Theorem allow_click_mutates_entry :
  let s := sample_pending in
  let s' :=
    (on_click sample_format default_config 1 (PyInt 42) true s).2 in
  OrdDict.get 42 (data s) = Some 0%nat /\
  OrdDict.get 42 (data s') = Some 0%nat /\
  (heap s !! 0%nat) ≫= (fun d : device => d !! "action") = None /\
  (heap s' !! 0%nat) ≫= (fun d : device => d !! "action")
    = Some (PyStr "allow").
Proof. by vm_compute. Qed.

(** C7 as stated fails: [name] is a declared placeholder, the daemon
    supplies no name for the card reader, and the entry has no [name]
    key. *)
Lemma unsupplied_attribute_omitted :
  let s' :=
    (_on_devices_presence_changed sample_format default_config card_reader
       sample_start).2 in
  "name" ∈ placeholders sample_start /\
  OrdDict.get 7 (data s') = Some 0%nat /\
  (heap s' !! 0%nat) ≫= (fun d : device => Some (d !! "name")) = Some None.
Proof. vm_compute. split; [by left | done]. Qed.

Lemma render_always_urgent_witness :
  reachable sample_format sample_placeholders default_config sample_pending /\
  match usbguard sample_format default_config sample_pending with
  | (Ok r, _) => urgent r = true
  | (Raise _, _) => False
  end.
Proof.
  assert (H : reachable sample_format sample_placeholders default_config
                sample_pending)
    by apply (reach_signal _ _ _ _ (DevicePresenceChanged mass_storage)),
             reach_start.
  split; [exact H |].
  pose proof (render_always_urgent sample_format sample_placeholders
                default_config sample_pending H) as Hr.
  destruct (usbguard sample_format default_config sample_pending)
    as [[r|e] s']; [tauto |].
  destruct Hr as (_ & msg & Hmsg & _). discriminate Hmsg.
Defined.

(** C9 as stated fails: in no reachable state, that is after no sequence
    of clicks and signals, does the log hold a daemon call with the
    permanent flag set. *)
Lemma no_click_sets_permanent :
  ~ exists sf gpl cfg s k target,
      reachable sf gpl cfg s /\
      ApplyDevicePolicy k target true ∈ log s.
Proof.
  intros (sf & gpl & cfg & s & k & target & Hr & Hin).
  destruct (reachable_inv sf gpl cfg s Hr) as (_ & _ & _ & Hlog).
  rewrite Forall_forall in Hlog. by specialize (Hlog _ Hin).
Qed.


(** * Further properties of the module *)

(** ** Consistency is kept by every handler *)

Section Consistency.
Context (sf : string -> gmap string value -> composite) (cfg : config).

Lemma index_ok_entry_ok h kl : index_ok h kl -> entry_ok h kl.
Proof. unfold index_ok, entry_ok. intros ->. by eexists. Qed.

Lemma consistent_wf s : consistent s -> wf s.
Proof.
  intros (_ & _ & H & _). unfold wf.
  eapply Forall_impl; [exact H | apply index_ok_entry_ok].
Qed.

Lemma index_ok_lt h kl : index_ok h kl -> (kl.2 < length h)%nat.
Proof.
  unfold index_ok. destruct (h !! kl.2) eqn:Hl; [|done].
  intros _. by eapply lookup_lt_Some.
Qed.

Lemma NoDup_snd_del {V} k (d : list (Z * V)) :
  NoDup (map snd d) -> NoDup (map snd (OrdDict.del k d)).
Proof.
  induction d as [|[k' v] d IH]; simpl; [done |].
  rewrite NoDup_cons. intros [Hnin Hnd].
  destruct (Z.eqb_spec k k'); [auto |]. simpl.
  apply NoDup_cons. split; [|auto].
  intros Hin. apply Hnin.
  apply list_elem_of_fmap in Hin as ([k2 v2] & -> & Hin).
  apply list_elem_of_fmap. exists (k2, v2). split; [done |].
  by eapply OrdDictFacts.elem_of_del.
Qed.

Lemma NoDup_snd_set {V} k v (d : list (Z * V)) :
  v ∉ map snd d -> NoDup (map snd d) -> NoDup (map snd (OrdDict.set k v d)).
Proof.
  induction d as [|[k' v'] d IH]; simpl.
  - intros _ _. apply NoDup_singleton.
  - rewrite not_elem_of_cons, NoDup_cons. intros [Hne Hnin] [Hnin' Hnd].
    destruct (Z.eqb_spec k k'); simpl.
    + apply NoDup_cons. done.
    + apply NoDup_cons. split; [|auto].
      intros Hin. apply list_elem_of_fmap in Hin as ([k2 v2] & Heq & Hin).
      simpl in Heq. subst v2.
      apply OrdDictFacts.elem_of_set in Hin as [[_ ->] | Hin]; [done |].
      apply Hnin'. apply list_elem_of_fmap. by exists (k2, v').
Qed.

Lemma new_device_index_value phs k attrs :
  "index" ∉ phs -> new_device phs k attrs !! "index" = Some (PyInt k).
Proof.
  induction phs as [|ph phs IH] using rev_ind; [done |].
  rewrite not_elem_of_app, list_elem_of_singleton. intros [Hphs Hne].
  rewrite new_device_snoc.
  destruct (attrs !! replace "_" "-" ph);
    rewrite ?lookup_insert_ne by done; auto.
Qed.

Lemma consistent_insert k d s :
  d !! "index" = Some (PyInt k) ->
  consistent s ->
  consistent ((do l <- heap_alloc d; data_setitem k l) s).2.
Proof.
  intros Hd (Hk & Hl & Hi & Hp). unfold consistent; simpl.
  split; [by apply OrdDictFacts.NoDup_set |].
  split; [|split; [|done]].
  - apply NoDup_snd_set; [|done].
    intros Hin. apply list_elem_of_fmap in Hin as ([k' l'] & Heq & Hin).
    simpl in Heq. rewrite Forall_forall in Hi.
    pose proof (index_ok_lt _ _ (Hi _ Hin)) as Hlt. simpl in Hlt. lia.
  - rewrite Forall_forall in *. intros [k' l'] Hin.
    apply OrdDictFacts.elem_of_set in Hin as [[-> ->] | Hin].
    + unfold index_ok; simpl.
      by rewrite lookup_app_r, Nat.sub_diag by lia.
    + specialize (Hi _ Hin). pose proof (index_ok_lt _ _ Hi).
      unfold index_ok in *. by rewrite lookup_app_l.
Qed.

Lemma consistent_delitem k s : consistent s -> consistent (data_delitem k s).2.
Proof.
  intros (Hk & Hl & Hi & Hp). unfold data_delitem.
  destruct (OrdDict.mem k (data s)); [|done]. unfold consistent; simpl.
  split; [by apply OrdDictFacts.NoDup_del |].
  split; [by apply NoDup_snd_del |]. split; [|done].
  rewrite Forall_forall in *. intros kl Hin. apply Hi.
  destruct kl. by eapply OrdDictFacts.elem_of_del.
Qed.

Lemma consistent_setitem l v s :
  consistent s -> consistent (heap_setitem l "action" v s).2.
Proof.
  intros (Hk & Hl & Hi & Hp). unfold consistent; simpl.
  split; [done |]. split; [done |]. split; [|done].
  rewrite Forall_forall in *. intros [k' l'] Hin. specialize (Hi _ Hin).
  unfold index_ok in *; simpl in *.
  destruct (decide (l = l')) as [->|Hne];
    [|by rewrite list_lookup_insert_ne].
  destruct (heap s !! l') as [d|] eqn:Hd; [|done].
  rewrite list_lookup_insert_eq by by eapply lookup_lt_Some.
  simpl in *. by rewrite lookup_insert_ne.
Qed.

Lemma consistent_view s s' :
  heap s' = heap s -> data s' = data s -> placeholders s' = placeholders s ->
  consistent s -> consistent s'.
Proof. unfold consistent. by intros -> -> ->. Qed.

Lemma consistent_refresh s : consistent s -> consistent (refresh sf cfg s).2.
Proof.
  apply consistent_view;
    [apply refresh_heap | apply refresh_data | apply refresh_placeholders].
Qed.

Lemma consistent_emit e s : consistent s -> consistent (emit e s).2.
Proof. by apply consistent_view. Qed.

Lemma consistent_applyDevicePolicy k t b rpc_ok s :
  consistent s -> consistent (applyDevicePolicy k t b rpc_ok s).2.
Proof.
  apply consistent_view;
    unfold applyDevicePolicy, bind, emit, modify; simpl; by destruct rpc_ok.
Qed.

Lemma post_del_refresh_consistent k :
  post (exec data_delitem k; refresh sf cfg) consistent consistent.
Proof.
  apply post_bind_inv; [|intros _]; intros s Hs;
    [by apply consistent_delitem | by apply consistent_refresh].
Qed.

Lemma set_policy_consistent act index rpc_ok :
  post (_set_policy sf cfg act index rpc_ok) consistent consistent.
Proof.
  unfold _set_policy.
  destruct (_ && _ && _); [|apply post_ret].
  apply post_bind_inv.
  - destruct (truthy (PyStr (format_notification cfg))); [|apply post_ret].
    destruct index; try apply post_raise.
    apply post_bind_inv;
      [apply post_read_only, read_only_data_getitem | intros l].
    apply post_bind_inv;
      [intros s Hs; by apply consistent_setitem | intros _].
    apply post_bind_inv; [apply post_read_only, read_only_deref | intros d].
    intros s Hs; by apply consistent_emit.
  - intros _.
    destruct act, index;
      try (apply post_raise);
      try (apply post_bind_inv;
             [apply post_read_only, read_only_gets
             | intros b; first
                 [ apply post_raise
                 | intros s Hs; by apply consistent_applyDevicePolicy ]]).
    apply post_bind_inv;
      [apply post_read_only, read_only_data_getitem | intros l].
    apply post_bind_inv; [apply post_read_only, read_only_deref | intros d].
    destruct (negb _); [apply post_del_refresh_consistent | apply post_ret].
Qed.

Lemma on_click_consistent button index rpc_ok :
  post (on_click sf cfg button index rpc_ok) consistent consistent.
Proof.
  intros s Hs.
  destruct (on_click_cases sf cfg button index rpc_ok s) as [-> | [act ->]];
    [done | by apply set_policy_consistent].
Qed.

Lemma presence_consistent event :
  post (_on_devices_presence_changed sf cfg event) consistent consistent.
Proof.
  unfold _on_devices_presence_changed.
  apply post_bind_inv; [|intros _; apply post_bind_inv; [|intros _]].
  - destruct (p_state event =? 1)%Z.
    + destruct (str_in _ _); [|apply post_ret].
      intros s Hs. unfold bind at 1, gets at 1. cbv beta iota.
      apply consistent_insert; [|done].
      apply new_device_index_value. apply Hs.
    + apply post_bind_inv; [apply post_read_only, read_only_gets | intros b].
      destruct b; [|apply post_ret].
      intros s Hs; by apply consistent_delitem.
  - intros s Hs; by apply consistent_refresh.
  - intros s Hs; by apply consistent_emit.
Qed.

Lemma policy_loop_consistent actions k perms :
  post (policy_loop sf cfg actions k perms) consistent consistent.
Proof.
  induction actions as [|a actions IH]; simpl; [apply post_ret |].
  destruct (str_in a perms); [|done].
  apply post_bind_inv; [apply post_read_only, read_only_gets | intros b].
  destruct b; [apply post_del_refresh_consistent | done].
Qed.

Lemma policy_consistent event :
  post (_on_devices_policy_changed sf cfg event) consistent consistent.
Proof.
  unfold _on_devices_policy_changed.
  apply post_bind_inv; [apply policy_loop_consistent | intros _].
  intros s Hs; by apply consistent_emit.
Qed.

Lemma signal_fired_consistent sig :
  post (signal_fired sf cfg sig) consistent consistent.
Proof. destruct sig; [apply presence_consistent | apply policy_consistent]. Qed.
End Consistency.

(** ** The placeholders *)

Section Placeholders.
Context (sf : string -> gmap string value -> composite)
        (gpl : string -> list string) (cfg : config).

Lemma elem_of_init_placeholders p :
  p ∈ init_placeholders gpl cfg <->
  p = "usbguard_id" \/
  (p ∈ available_placeholders /\
   p ∈ gpl (format_device cfg +:+ format_notification cfg)).
Proof.
  unfold init_placeholders.
  rewrite elem_of_app, list_elem_of_singleton, list_elem_of_filter. tauto.
Qed.

Lemma NoDup_init_placeholders : NoDup (init_placeholders gpl cfg).
Proof.
  unfold init_placeholders. apply NoDup_app. split; [|split].
  - apply NoDup_filter. unfold available_placeholders.
    apply (bool_decide_unpack _). by vm_compute.
  - intros p [_ Hp]%list_elem_of_filter ->%list_elem_of_singleton.
    revert Hp. apply (bool_decide_unpack _). by vm_compute.
  - apply NoDup_singleton.
Qed.

Lemma reachable_placeholders s :
  reachable sf gpl cfg s -> placeholders s = init_placeholders gpl cfg.
Proof.
  induction 1 as [ok | s ok _ IH | s sig _ IH | s b i r _ IH].
  - by destruct ok.
  - by destruct ok.
  - rewrite <- IH. apply (signal_fired_frame sf cfg sig s).
  - rewrite <- IH. apply (on_click_frame sf cfg b i r s).
Qed.

Lemma reachable_consistent s : reachable sf gpl cfg s -> consistent s.
Proof.
  induction 1 as [ok | s ok _ IH | s sig _ IH | s b i r _ IH].
  - assert ("index" ∉ init_placeholders gpl cfg) as Hni.
    { rewrite elem_of_init_placeholders. intros [H | [H _]]; [done |].
      revert H. apply (bool_decide_unpack _). by vm_compute. }
    destruct ok; (split; [constructor |]); (split; [constructor |]);
      (split; [constructor | exact Hni]).
  - revert IH. apply consistent_view; by destruct ok.
  - by apply signal_fired_consistent.
  - by apply on_click_consistent.
Qed.
End Placeholders.

(** ** The device list *)

Section Rendering.
Context (sf : string -> gmap string value -> composite) (cfg : config).

Lemma get_of_elem {V} k (v : V) d :
  NoDup (OrdDict.keys d) -> (k, v) ∈ d -> OrdDict.get k d = Some v.
Proof.
  unfold OrdDict.keys. induction d as [|[k' v'] d IH]; simpl.
  - intros _ H. by apply elem_of_nil in H.
  - rewrite NoDup_cons, elem_of_cons. intros [Hnin Hnd] [[= -> ->] | Hin].
    + by rewrite Z.eqb_refl.
    + destruct (Z.eqb_spec k k') as [->|Hne]; [|auto].
      exfalso. apply Hnin. apply list_elem_of_fmap. by exists (k', v).
Qed.

Lemma mapM_fst {A B C} (f : A -> M B) (h : A * C -> B) (xs : list (A * C)) s :
  (forall x, x ∈ xs -> f x.1 s = (Ok (h x), s)) ->
  mapM f (map fst xs) s = (Ok (map h xs), s).
Proof.
  induction xs as [|x xs IH]; intros Hf; simpl; [done |].
  unfold bind. rewrite (Hf x) by left.
  rewrite IH by (intros x' Hx'; apply Hf; by right). done.
Qed.

(** [_manipulate_devices] computes [render_registry] of the state. *)
Lemma manipulate_devices_render s :
  consistent s ->
  _manipulate_devices sf cfg s =
    (Ok (render_registry sf cfg (heap s) (data s)), s).
Proof.
  intros (Hk & _ & Hi & _). unfold _manipulate_devices, render_registry.
  unfold bind at 1. unfold gets at 1. cbv beta iota. unfold bind at 1.
  unfold OrdDict.keys at 1.
  rewrite (mapM_fst _
    (fun kl : Z * loc =>
       composite_update
         (sf (format_device cfg) (Scalar <$> default ∅ (heap s !! kl.2)))
         (PyInt kl.1))); [done |].
  intros [k l] Hin. simpl. rewrite Forall_forall in Hi.
  specialize (Hi _ Hin). unfold index_ok in Hi; simpl in Hi.
  unfold bind, data_getitem, deref, gets, dict_getitem.
  rewrite (get_of_elem k l (data s) Hk Hin).
  destruct (heap s !! l) as [d|]; [|done]. simpl in *. by rewrite Hi.
Qed.

Lemma refresh_render s :
  consistent s ->
  refresh sf cfg s =
    (Ok tt, set_new_data (Some (render_registry sf cfg (heap s) (data s))) s).
Proof.
  intros Hs. by rewrite refresh_unfold, manipulate_devices_render.
Qed.

Lemma Forall_composite_join (P : segment -> Prop) sep items :
  Forall P sep -> Forall (Forall P) items ->
  Forall P (composite_join sep items).
Proof.
  intros Hsep. induction 1 as [|c items Hc Hitems IH]; simpl; [constructor |].
  destruct items as [|c' items]; [done |].
  apply Forall_app. split; [done |]. apply Forall_app. by split.
Qed.

Lemma render_registry_tags h dt :
  Forall (tag_ok dt) (render_registry sf cfg h dt).
Proof.
  unfold render_registry. apply Forall_composite_join.
  - unfold composite_update. apply Forall_fmap, Forall_forall.
    intros g _. by left.
  - apply Forall_fmap, Forall_forall. intros [k l] Hin. simpl.
    unfold composite_update. apply Forall_fmap, Forall_forall.
    intros g _. right. exists k. split; [|done].
    apply list_elem_of_fmap. by exists (k, l).
Qed.

Lemma shown_ok_view s s' :
  data s' = data s -> new_data s' = new_data s -> shown_ok s -> shown_ok s'.
Proof. unfold shown_ok. by intros -> ->. Qed.

Lemma refresh_shown_ok s : consistent s -> shown_ok (refresh sf cfg s).2.
Proof.
  intros Hs. rewrite refresh_render by done. simpl.
  intros c [= <-]. simpl. apply render_registry_tags.
Qed.
End Rendering.

(** ** What a signal does to a consistent state *)

Section SignalEffect.
Context (sf : string -> gmap string value -> composite) (cfg : config).

(** The presence handler, component by component. *)
Lemma presence_effect event s :
  consistent s ->
  let s' := (_on_devices_presence_changed sf cfg event s).2 in
  (_on_devices_presence_changed sf cfg event s).1 = Ok tt /\
  data s' =
    (if (p_state event =? 1)%Z then
       if str_in "block id" (p_perms event)
       then OrdDict.set (p_id event) (length (heap s)) (data s)
       else data s
     else OrdDict.del (p_id event) (data s)) /\
  heap s' =
    (if (p_state event =? 1)%Z && str_in "block id" (p_perms event)
     then heap s ++
          [new_device (placeholders s) (p_id event) (p_attrs event)]
     else heap s) /\
  new_data s' = Some (render_registry sf cfg (heap s') (data s')) /\
  log s' = log s ++ [Py3Update].
Proof.
  intros Hs. cbv zeta.
  destruct (_on_devices_presence_changed sf cfg event s) as [r s'] eqn:Hrun.
  simpl. unfold _on_devices_presence_changed in Hrun.
  pose proof (consistent_delitem (p_id event) s Hs) as Hdel.
  pose proof (consistent_insert (p_id event)
                (new_device (placeholders s) (p_id event) (p_attrs event)) s
                (new_device_index_value _ _ _ (proj2 (proj2 (proj2 Hs)))) Hs)
    as Hins.
  unfold data_delitem in Hdel.
  destruct (p_state event =? 1)%Z; simpl.
  - destruct (str_in "block id" (p_perms event)); simpl;
      unfold bind, gets, heap_alloc, data_setitem, modify, ret in Hrun;
      simpl in Hrun; rewrite refresh_render in Hrun by done;
      simpl in Hrun; injection Hrun as <- <-; done.
  - unfold bind, gets, data_delitem, ret in Hrun; simpl in Hrun.
    destruct (OrdDict.mem (p_id event) (data s)) eqn:Hm; simpl in Hrun;
      rewrite ?Hm in Hrun; simpl in Hrun;
      rewrite refresh_render in Hrun by done;
      simpl in Hrun; injection Hrun as <- <-; simpl; [done |].
    by rewrite (del_absent _ _ Hm).
Qed.

(** The policy handler, component by component. *)
Lemma policy_effect event s :
  consistent s ->
  let s' := (_on_devices_policy_changed sf cfg event s).2 in
  let hit :=
    (str_in "allow id" (p_perms event) || str_in "reject id" (p_perms event))
    && OrdDict.mem (p_id event) (data s) in
  (_on_devices_policy_changed sf cfg event s).1 = Ok tt /\
  data s' = (if hit then OrdDict.del (p_id event) (data s) else data s) /\
  heap s' = heap s /\
  new_data s' =
    (if hit then Some (render_registry sf cfg (heap s') (data s'))
     else new_data s) /\
  log s' = log s ++ [Py3Update].
Proof.
  intros Hs. cbv zeta.
  destruct (_on_devices_policy_changed sf cfg event s) as [r s'] eqn:Hrun.
  simpl. unfold _on_devices_policy_changed, policy_loop in Hrun.
  pose proof (consistent_delitem (p_id event) s Hs) as Hdel.
  unfold data_delitem in Hdel.
  destruct (OrdDict.mem (p_id event) (data s)) eqn:Hm; simpl in Hdel.
  - destruct (str_in "allow id" (p_perms event));
      [|destruct (str_in "reject id" (p_perms event))]; simpl;
      unfold bind, gets, data_delitem, ret in Hrun; simpl in Hrun;
      rewrite ?Hm in Hrun; simpl in Hrun;
      rewrite ?refresh_render in Hrun by done;
      simpl in Hrun; injection Hrun as <- <-; done.
  - rewrite andb_false_r.
    destruct (str_in "allow id" (p_perms event));
      destruct (str_in "reject id" (p_perms event)); simpl;
      unfold bind, gets, ret in Hrun; simpl in Hrun;
      rewrite ?Hm in Hrun; simpl in Hrun;
      injection Hrun as <- <-; done.
Qed.
End SignalEffect.

(** ** What a click does to the state *)

Section ClickEffect.
Context (sf : string -> gmap string value -> composite) (cfg : config).

Ltac run_click Hrun :=
  unfold _set_policy in Hrun;
  repeat match type of Hrun with
  | context [truthy (PyStr (format_notification cfg))] =>
      destruct (truthy (PyStr (format_notification cfg)))
  | context [OrdDict.get ?k (data ?s)] =>
      let Hl := fresh "Hl" in
      destruct (OrdDict.get k (data s)) eqn:Hl
  | context [OrdDict.mem ?k (data ?s)] =>
      unfold OrdDict.mem in Hrun
  | context [bool_decide (?a = ?b)] =>
      destruct (bool_decide_reflect (a = b))
  | context [refresh sf cfg ?t] =>
      rewrite (refresh_unfold sf cfg t) in Hrun;
      let Hm := fresh "Hm" in
      destruct (_manipulate_devices sf cfg t).1 eqn:Hm
  | context [if ?b then _ else _] => is_var b; destruct b
  | _ => progress
           (unfold bind, ret, raise, gets, modify, emit, data_getitem,
              data_delitem, heap_setitem, deref, applyDevicePolicy in Hrun;
            simpl in Hrun)
  end.

(** The heap after [_set_policy]: untouched, or the dict of the clicked
    device with its ['action'] key set. *)
Lemma set_policy_heap act index rpc_ok s :
  let s' := (_set_policy sf cfg act index rpc_ok s).2 in
  heap s' = heap s \/
  exists k l,
    index = PyInt k /\ OrdDict.get k (data s) = Some l /\
    heap s' =
      <[l := <["action" := PyStr (action_name act)]>
               (default ∅ (heap s !! l))]> (heap s).
Proof.
  cbv zeta.
  destruct (_set_policy sf cfg act index rpc_ok s) as [r s'] eqn:Hrun.
  simpl. unfold _set_policy in Hrun.
  destruct (_ && _ && _) in Hrun; [|injection Hrun as <- <-; by left].
  destruct index as [|k|str], act; run_click Hrun;
    injection Hrun as <- <-; simplify_eq; simpl; eauto 10.
Qed.
(** The registry after [_set_policy]: untouched together with the stored
    device list, or, for a block, without the clicked id and with the
    device list rebuilt. *)
Lemma set_policy_registry act index rpc_ok s :
  consistent s ->
  let s' := (_set_policy sf cfg act index rpc_ok s).2 in
  (data s' = data s /\ new_data s' = new_data s) \/
  (exists k,
     index = PyInt k /\ act = Block /\ k ∈ OrdDict.keys (data s) /\
     data s' = OrdDict.del k (data s) /\
     new_data s' = Some (render_registry sf cfg (heap s') (data s'))).
Proof.
  intros Hs. cbv zeta.
  pose proof (set_policy_consistent sf cfg act index rpc_ok s Hs) as Hs'.
  destruct (_set_policy sf cfg act index rpc_ok s) as [r s'] eqn:Hrun.
  simpl in *. unfold _set_policy in Hrun.
  destruct (_ && _ && _) in Hrun; [|injection Hrun as <- <-; by left].
  destruct index as [|k|str], act; run_click Hrun;
    injection Hrun as <- <-; simplify_eq; simpl; auto;
    match goal with
    | Hm : (_manipulate_devices sf cfg ?t).1 = _ |- _ =>
        assert (consistent t) as Ht
          by (revert Hs'; by apply consistent_view);
        rewrite (manipulate_devices_render sf cfg t Ht) in Hm;
        simpl in Hm; simplify_eq
    end;
    right; exists k; repeat split; try done;
    apply OrdDictFacts.get_is_Some; by eexists.
Qed.

(** The log after [_set_policy]: nothing is added, or a notification,
    or a daemon call for the clicked id, or a notification followed by
    the call. *)
Lemma set_policy_log act index rpc_ok s :
  let s' := (_set_policy sf cfg act index rpc_ok s).2 in
  exists notes calls,
    log s' = log s ++ notes ++ calls /\
    (notes = [] \/
     exists k msg,
       index = PyInt k /\ k ∈ OrdDict.keys (data s) /\
       notes = [NotifyUser msg]) /\
    (calls = [] \/
     exists k,
       index = PyInt k /\ k <> 0%Z /\ act <> Block /\
       calls = [ApplyDevicePolicy k (targets act) (is_permanant s)]).
Proof.
  cbv zeta.
  destruct (_set_policy sf cfg act index rpc_ok s) as [r s'] eqn:Hrun.
  simpl. unfold _set_policy in Hrun.
  destruct (truthy (PyStr (action_name act)) && truthy index
            && negb (bool_decide (index = PyStr "sep"))) eqn:Hg;
    [|injection Hrun as <- <-; exists [], []; rewrite app_nil_r; auto].
  destruct index as [|k|str]; [by rewrite andb_false_r in Hg | |].
  - assert (k <> 0%Z) as Hk.
    { intros ->. by rewrite andb_false_r in Hg. }
    destruct act; run_click Hrun; injection Hrun as <- <-; simplify_eq;
      simpl; rewrite <- ?app_assoc; simpl;
      first
        [ exists [], []; rewrite app_nil_r; by auto
        | eexists [_], []; split; [reflexivity |]; split; [|by auto];
          right; eexists _, _; repeat split;
          apply OrdDictFacts.get_is_Some; by eexists
        | eexists [], [_]; split; [reflexivity |]; split; [by auto |];
          right; eexists; by repeat split
        | eexists [_], [_]; split; [reflexivity |]; split;
          [ right; eexists _, _; repeat split;
            apply OrdDictFacts.get_is_Some; by eexists
          | right; eexists; by repeat split ] ].
  - destruct act; run_click Hrun; injection Hrun as <- <-;
      exists [], []; rewrite app_nil_r; auto.
Qed.
End ClickEffect.

(** ** Properties of the reachable states *)

Section ReachableFacts.
Context (sf : string -> gmap string value -> composite)
        (gpl : string -> list string) (cfg : config).

Lemma shown_ok_step s s' :
  shown_ok s ->
  (data s' = data s /\ new_data s' = new_data s) \/
  (exists h, new_data s' = Some (render_registry sf cfg h (data s'))) ->
  shown_ok s'.
Proof.
  intros Hs [[Hd Hn] | [h Hn]].
  - by apply (shown_ok_view s).
  - intros c Hc. rewrite Hn in Hc. injection Hc as <-.
    apply render_registry_tags.
Qed.

Lemma reachable_shown_ok s : reachable sf gpl cfg s -> shown_ok s.
Proof.
  induction 1 as [ok | s ok _ IH | s sig Hr IH | s b i r Hr IH].
  - by destruct ok.
  - revert IH. apply shown_ok_view; by destruct ok.
  - pose proof (reachable_consistent sf gpl cfg s Hr) as Hc.
    apply (shown_ok_step s); [done |]. destruct sig as [e|e]; simpl.
    + destruct (presence_effect sf cfg e s Hc) as (_ & _ & _ & Hn & _).
      right. by eexists.
    + destruct (policy_effect sf cfg e s Hc) as (_ & Hd & _ & Hn & _).
      destruct (_ && _); [right; by eexists | by left].
  - pose proof (reachable_consistent sf gpl cfg s Hr) as Hc.
    apply (shown_ok_step s); [done |].
    destruct (on_click_cases sf cfg b i r s) as [-> | [act ->]]; [by left |].
    destruct (set_policy_registry sf cfg act i r s Hc)
      as [H | (k & _ & _ & _ & _ & Hn)]; [by left | right; by eexists].
Qed.

(** X1: in every reachable state no device id occurs twice in the
    registry, and no two registry entries refer to the same device
    dict. *)
Theorem registry_entries_unique (s : state) :
  reachable sf gpl cfg s ->
  NoDup (OrdDict.keys (data s)) /\ NoDup (map snd (data s)).
Proof.
  intros Hr. destruct (reachable_consistent sf gpl cfg s Hr) as (H1 & H2 & _).
  by split.
Qed.

(** X2: in every reachable state the ['index'] field of a pending
    device, the tag that a click on its segment reports, is the id
    under which the registry holds the device, also after clicks have
    written into the dict. *)
Theorem entry_index_is_id (s : state) (k : Z) (l : loc) :
  reachable sf gpl cfg s ->
  OrdDict.get k (data s) = Some l ->
  exists d, heap s !! l = Some d /\ d !! "index" = Some (PyInt k).
Proof.
  intros Hr Hl.
  destruct (reachable_consistent sf gpl cfg s Hr) as (_ & _ & Hi & _).
  rewrite Forall_forall in Hi.
  specialize (Hi _ (OrdDictFacts.get_elem_of _ _ _ Hl)).
  unfold index_ok in Hi; simpl in Hi.
  destruct (heap s !! l) as [d|]; [|done]. by exists d.
Qed.

(** X3: in every reachable state [_manipulate_devices] returns without
    raising and without changing the state, and its result is the list
    of the formatted devices in registry order (oldest insertion first),
    the segments of each device tagged with the device's id, joined by
    the formatted separator tagged ['sep']. *)
Theorem manipulate_devices_snapshot (s : state) :
  reachable sf gpl cfg s ->
  _manipulate_devices sf cfg s =
    (Ok (composite_join
           (composite_update (sf (format_device_separator cfg) ∅)
              (PyStr "sep"))
           (map (fun kl : Z * loc =>
                   composite_update
                     (sf (format_device cfg)
                        (Scalar <$> default ∅ (heap s !! kl.2)))
                     (PyInt kl.1))
                (data s))),
     s).
Proof.
  intros Hr. apply manipulate_devices_render.
  by apply (reachable_consistent sf gpl cfg).
Qed.

(** X4: in every reachable state both signal handlers return without
    raising, whatever the payload, and add exactly one re-render request
    ([py3.update]) and nothing else to the log of outside calls. *)
Theorem signal_handlers_never_raise (s : state) (sig : signal) :
  reachable sf gpl cfg s ->
  (signal_fired sf cfg sig s).1 = Ok tt /\
  log (signal_fired sf cfg sig s).2 = log s ++ [Py3Update].
Proof.
  intros Hr. pose proof (reachable_consistent sf gpl cfg s Hr) as Hc.
  destruct sig as [e|e]; simpl.
  - destruct (presence_effect sf cfg e s Hc) as (H1 & _ & _ & _ & H2).
    by split.
  - destruct (policy_effect sf cfg e s Hc) as (H1 & _ & _ & _ & H2).
    by split.
Qed.

(** X5: in a reachable state every presence signal, also one that is
    ignored, rebuilds the stored device list from the registry as it is
    after the signal; a policy signal rebuilds it only when it removes
    an entry, and otherwise leaves the stored list as it was. *)
Theorem device_list_rebuilt (s : state) (event : payload) :
  reachable sf gpl cfg s ->
  (let s' := (_on_devices_presence_changed sf cfg event s).2 in
   new_data s' = Some (render_registry sf cfg (heap s') (data s'))) /\
  (let s' := (_on_devices_policy_changed sf cfg event s).2 in
   if (str_in "allow id" (p_perms event) || str_in "reject id" (p_perms event))
      && OrdDict.mem (p_id event) (data s)
   then new_data s' = Some (render_registry sf cfg (heap s') (data s'))
   else new_data s' = new_data s /\ data s' = data s).
Proof.
  intros Hr. pose proof (reachable_consistent sf gpl cfg s Hr) as Hc.
  split.
  - by destruct (presence_effect sf cfg event s Hc) as (_ & _ & _ & H & _).
  - destruct (policy_effect sf cfg event s Hc) as (_ & Hd & _ & Hn & _).
    simpl in *. by destruct (_ && _).
Qed.

(** X6: in every reachable state each segment of the stored device list
    is tagged ['sep'] or with the id of a device that is in the registry
    at that moment: the module never keeps a clickable segment for a
    device it has dropped. *)
Theorem shown_segments_pending (s : state) (c : composite) (g : segment) :
  reachable sf gpl cfg s ->
  new_data s = Some c -> g ∈ c ->
  seg_index g = PyStr "sep" \/
  exists k, seg_index g = PyInt k /\ k ∈ OrdDict.keys (data s).
Proof.
  intros Hr Hn Hg. pose proof (reachable_shown_ok s Hr c Hn) as H.
  rewrite Forall_forall in H. destruct (H g Hg) as [Hs | (k & Hk & Hi)];
    [by left | right; by exists k].
Qed.
End ReachableFacts.

(** ** Order and isolation of the registry entries *)

Section Isolation.
Context (sf : string -> gmap string value -> composite)
        (gpl : string -> list string) (cfg : config).

Lemma keys_set_order {V} k (v : V) d :
  OrdDict.keys (OrdDict.set k v d) =
    if OrdDict.mem k d then OrdDict.keys d else OrdDict.keys d ++ [k].
Proof.
  unfold OrdDict.keys, OrdDict.mem.
  induction d as [|[k' v'] d IH]; simpl; [done |].
  destruct (Z.eqb_spec k k') as [->|Hne]; simpl; [done |].
  rewrite IH. by destruct (OrdDict.get k d).
Qed.

Lemma get_inj {V} k k' (l : V) d :
  NoDup (map snd d) ->
  OrdDict.get k d = Some l -> OrdDict.get k' d = Some l -> k = k'.
Proof.
  induction d as [|[k0 v0] d IH]; simpl; [done |].
  rewrite NoDup_cons. intros [Hnin Hnd].
  destruct (Z.eqb_spec k k0) as [->|Hk], (Z.eqb_spec k' k0) as [->|Hk'];
    try done.
  - intros [= ->] Hl. exfalso. apply Hnin.
    apply list_elem_of_fmap. exists (k', l). split; [done |].
    by apply OrdDictFacts.get_elem_of.
  - intros Hl [= ->]. exfalso. apply Hnin.
    apply list_elem_of_fmap. exists (k, l). split; [done |].
    by apply OrdDictFacts.get_elem_of.
  - auto.
Qed.

Lemma heap_grows_refl s : heap_grows s s.
Proof. intros l d Hd. by exists d. Qed.

Lemma heap_grows_eq s s' : heap s' = heap s -> heap_grows s s'.
Proof. intros H l d Hd. exists d. by rewrite H. Qed.

Lemma heap_grows_app s s' d0 : heap s' = heap s ++ [d0] -> heap_grows s s'.
Proof.
  intros H l d Hd. exists d. rewrite H. split; [|done].
  by apply lookup_app_l_Some.
Qed.

Lemma heap_grows_action s s' l v :
  heap s' = <[l := <["action" := v]> (default ∅ (heap s !! l))]> (heap s) ->
  heap_grows s s'.
Proof.
  intros H l0 d Hd. rewrite H.
  destruct (decide (l = l0)) as [->|Hne].
  - rewrite list_lookup_insert_eq by by eapply lookup_lt_Some.
    rewrite Hd. simpl. eexists; split; [done |].
    intros key Hk. by rewrite lookup_insert_ne.
  - rewrite list_lookup_insert_ne by done. by exists d.
Qed.

(** X7: an insertion signal (state code 1 with a ['block id']
    permission) for an id that is not pending appends the id at the end
    of the registry; for an id that is already pending it leaves the
    order of the registry as it is and makes the entry refer to a newly
    created device dict. *)
Theorem insertion_keeps_order (s : state) (event : payload) :
  p_state event = 1%Z ->
  str_in "block id" (p_perms event) = true ->
  let s' := (_on_devices_presence_changed sf cfg event s).2 in
  OrdDict.keys (data s') =
    (if OrdDict.mem (p_id event) (data s)
     then OrdDict.keys (data s)
     else OrdDict.keys (data s) ++ [p_id event]) /\
  OrdDict.get (p_id event) (data s') = Some (length (heap s)) /\
  heap s !! length (heap s) = None.
Proof.
  intros Hst Hperm s'. subst s'.
  rewrite presence_data, Hst, Hperm. simpl.
  split; [apply keys_set_order |].
  split; [apply OrdDictFacts.get_set_eq |].
  by apply lookup_ge_None.
Qed.

(** X8: in a reachable state a signal about one device leaves every
    other device alone: the registry entry of any other id is the same
    reference as before, and no device dict that exists is changed. *)
Theorem signal_leaves_other_devices (s : state) (sig : signal) (k : Z) :
  reachable sf gpl cfg s ->
  k <> signal_id sig ->
  let s' := (signal_fired sf cfg sig s).2 in
  OrdDict.get k (data s') = OrdDict.get k (data s) /\
  forall l d, heap s !! l = Some d -> heap s' !! l = Some d.
Proof.
  intros Hr Hk s'. subst s'.
  pose proof (reachable_consistent sf gpl cfg s Hr) as Hc.
  destruct sig as [e|e]; simpl in *.
  - destruct (presence_effect sf cfg e s Hc) as (_ & Hd & Hh & _).
    rewrite Hd, Hh. split.
    + destruct (p_state e =? 1)%Z; [destruct (str_in _ _) |];
        by rewrite ?OrdDictFacts.get_set_ne, ?OrdDictFacts.get_del_ne.
    + intros l d Hl. destruct (_ && _); [|done].
      by apply lookup_app_l_Some.
  - destruct (policy_effect sf cfg e s Hc) as (_ & Hd & Hh & _).
    rewrite Hd, Hh. split; [|done].
    destruct (_ && _); by rewrite ?OrdDictFacts.get_del_ne.
Qed.

(** X9: in a reachable state a click on one segment leaves every other
    device alone: for an id other than the clicked index, the registry
    entry is the same reference as before and the device dict behind it
    is unchanged. *)
Theorem click_leaves_other_devices (s : state) (button : Z)
    (index : scalar) (rpc_ok : bool) (k : Z) (l : loc) :
  reachable sf gpl cfg s ->
  index <> PyInt k ->
  OrdDict.get k (data s) = Some l ->
  let s' := (on_click sf cfg button index rpc_ok s).2 in
  OrdDict.get k (data s') = Some l /\ heap s' !! l = heap s !! l.
Proof.
  intros Hr Hk Hl s'. subst s'.
  pose proof (reachable_consistent sf gpl cfg s Hr) as Hc.
  destruct (on_click_cases sf cfg button index rpc_ok s)
    as [-> | [act ->]]; [done |].
  split.
  - destruct (set_policy_registry sf cfg act index rpc_ok s Hc)
      as [[-> _] | (k0 & -> & _ & _ & -> & _)]; [done |].
    rewrite OrdDictFacts.get_del_ne; [done | congruence].
  - destruct (set_policy_heap sf cfg act index rpc_ok s)
      as [-> | (k0 & l0 & -> & Hl0 & ->)]; [done |].
    apply list_lookup_insert_ne. intros ->.
    apply Hk. f_equal. destruct Hc as (_ & Hnd & _).
    by apply (get_inj k0 k l (data s)).
Qed.

(** X10: no handler ever drops a device dict from the heap, and the only
    key of an existing device dict that a signal or a click can change
    is ['action']: every attribute taken from the daemon and the id
    fields stay as they were at insertion. *)
Theorem device_dicts_only_gain_action (s : state) (sig : signal)
    (button : Z) (index : scalar) (rpc_ok : bool) :
  reachable sf gpl cfg s ->
  heap_grows s (signal_fired sf cfg sig s).2 /\
  heap_grows s (on_click sf cfg button index rpc_ok s).2.
Proof.
  intros Hr. pose proof (reachable_consistent sf gpl cfg s Hr) as Hc.
  split.
  - destruct sig as [e|e]; simpl.
    + destruct (presence_effect sf cfg e s Hc) as (_ & _ & Hh & _).
      destruct (_ && _); [by eapply heap_grows_app | by apply heap_grows_eq].
    + destruct (policy_effect sf cfg e s Hc) as (_ & _ & Hh & _).
      by apply heap_grows_eq.
  - destruct (on_click_cases sf cfg button index rpc_ok s)
      as [-> | [act ->]]; [apply heap_grows_refl |].
    destruct (set_policy_heap sf cfg act index rpc_ok s)
      as [H | (k0 & l0 & _ & _ & H)];
      [by apply heap_grows_eq | by eapply heap_grows_action].
Qed.
End Isolation.

(** ** Placeholders and the id fields of an entry *)

Section Fields.
Context (sf : string -> gmap string value -> composite)
        (gpl : string -> list string) (cfg : config).

Lemma new_device_unsupplied phs k attrs key :
  attrs !! replace "_" "-" key = None ->
  new_device phs k attrs !! key =
    (<["index" := PyInt k]> (<["usbguard_id" := PyInt k]> ∅) : device) !! key.
Proof.
  intros Hk. induction phs as [|ph phs IH] using rev_ind; [done |].
  rewrite new_device_snoc.
  destruct (attrs !! replace "_" "-" ph) as [v|] eqn:Hv; [|done].
  rewrite lookup_insert_ne; [done |]. intros ->. congruence.
Qed.

(** X11: the placeholders chosen by [post_config_hook] never change
    afterwards; they hold no name twice, always hold [usbguard_id], and
    any other of them is one of the available placeholder names that
    occurs in [format_device] followed by [format_notification]. *)
Theorem placeholders_fixed (s : state) :
  reachable sf gpl cfg s ->
  placeholders s = init_placeholders gpl cfg /\
  NoDup (placeholders s) /\
  "usbguard_id" ∈ placeholders s /\
  forall p, p ∈ placeholders s ->
    p = "usbguard_id" \/
    (p ∈ available_placeholders /\
     p ∈ gpl (format_device cfg +:+ format_notification cfg)).
Proof.
  intros Hr. rewrite (reachable_placeholders sf gpl cfg s Hr).
  split; [done |]. split; [apply NoDup_init_placeholders |].
  split; [apply (elem_of_init_placeholders sf gpl cfg); by left |].
  intros p Hp. by apply (elem_of_init_placeholders sf gpl cfg).
Qed.

(** X12: the id fields of the entry that an insertion signal creates in
    a reachable state.  ['index'] is always the id.  ['usbguard_id'] is
    the id unless the daemon's attributes have a ['usbguard-id'] key:
    then the field holds that attribute ([None] when it is empty),
    because [usbguard_id] is itself one of the placeholders copied from
    the attributes. *)
Theorem inserted_entry_id_fields (s : state) (event : payload) :
  reachable sf gpl cfg s ->
  p_state event = 1%Z ->
  str_in "block id" (p_perms event) = true ->
  let s' := (_on_devices_presence_changed sf cfg event s).2 in
  exists l d,
    OrdDict.get (p_id event) (data s') = Some l /\
    heap s' !! l = Some d /\
    d !! "index" = Some (PyInt (p_id event)) /\
    d !! "usbguard_id" =
      match p_attrs event !! "usbguard-id" with
      | None => Some (PyInt (p_id event))
      | Some v => Some (if String.eqb v "" then PyNone else PyStr v)
      end.
Proof.
  intros Hr Hst Hperm s'. subst s'.
  pose proof (reachable_consistent sf gpl cfg s Hr) as Hc.
  destruct (presence_effect sf cfg event s Hc) as (_ & Hd & Hh & _).
  rewrite Hst, Hperm in Hd, Hh. simpl in Hd, Hh.
  exists (length (heap s)),
    (new_device (placeholders s) (p_id event) (p_attrs event)).
  rewrite Hd, Hh, OrdDictFacts.get_set_eq.
  split; [done |].
  split; [by rewrite lookup_app_r, Nat.sub_diag by lia |].
  split; [apply new_device_index_value, Hc |].
  destruct (p_attrs event !! "usbguard-id") as [v|] eqn:Hv.
  - assert ("usbguard_id" ∈ placeholders s) as Hin.
    { rewrite (reachable_placeholders sf gpl cfg s Hr).
      apply (elem_of_init_placeholders sf gpl cfg). by left. }
    exact (new_device_value _ (p_id event) _ "usbguard_id" Hin v Hv).
  - by rewrite new_device_unsupplied.
Qed.
End Fields.

(** ** The entry of an inserted device *)

Section InsertedEntry.
Context (sf : string -> gmap string value -> composite)
        (gpl : string -> list string) (cfg : config).

(** C7, as the code has it: in every state the module can reach, the
    device entry built for an insertion signal has the keys [index] and
    [usbguard_id] and one key for each declared placeholder whose
    dash-separated name the daemon supplied, and no other key.  [index]
    carries the id.  [usbguard_id], which is itself a declared
    placeholder, carries the id unless the daemon supplied a
    ['usbguard-id'] attribute, and then carries that attribute.  The
    value of a supplied placeholder is the supplied string, or [None]
    when that string is empty.  A placeholder that the daemon did not
    supply gets no key. *)
Theorem inserted_entry_keys (s : state) (event : payload) (key : string) :
  reachable sf gpl cfg s ->
  p_state event = 1%Z ->
  str_in "block id" (p_perms event) = true ->
  let s' := (_on_devices_presence_changed sf cfg event s).2 in
  exists l d,
    OrdDict.get (p_id event) (data s') = Some l /\
    heap s' !! l = Some d /\
    d = new_device (placeholders s) (p_id event) (p_attrs event) /\
    (is_Some (d !! key) <->
       key = "usbguard_id" \/ key = "index" \/
       (key ∈ placeholders s /\
        is_Some (p_attrs event !! replace "_" "-" key))) /\
    (key ∈ placeholders s ->
     forall v, p_attrs event !! replace "_" "-" key = Some v ->
     d !! key = Some (if String.eqb v "" then PyNone else PyStr v)) /\
    (key ∈ placeholders s ->
     key <> "usbguard_id" ->
     p_attrs event !! replace "_" "-" key = None ->
     d !! key = None) /\
    d !! "index" = Some (PyInt (p_id event)) /\
    d !! "usbguard_id" =
      match p_attrs event !! "usbguard-id" with
      | None => Some (PyInt (p_id event))
      | Some v => Some (if String.eqb v "" then PyNone else PyStr v)
      end.
Proof.
  intros Hr Hst Hperm s'. subst s'.
  pose proof (reachable_consistent sf gpl cfg s Hr) as Hc.
  pose proof (reachable_placeholders sf gpl cfg s Hr) as Hph.
  destruct (presence_effect sf cfg event s Hc) as (_ & Hd & Hh & _).
  rewrite Hst, Hperm in Hd, Hh. simpl in Hd, Hh.
  exists (length (heap s)),
    (new_device (placeholders s) (p_id event) (p_attrs event)).
  rewrite Hd, Hh, OrdDictFacts.get_set_eq.
  split; [done |].
  split; [by rewrite lookup_app_r, Nat.sub_diag by lia |].
  split; [done |].
  split; [apply new_device_dom |].
  split; [apply new_device_value |].
  assert ("index" ∉ placeholders s) as Hni by apply Hc.
  split; [|split].
  - intros Hin Hne Hnone. rewrite new_device_unsupplied by done.
    rewrite !lookup_insert_ne; [done | congruence |].
    intros <-. done.
  - by apply new_device_index_value.
  - destruct (p_attrs event !! "usbguard-id") as [v|] eqn:Hv.
    + assert ("usbguard_id" ∈ placeholders s) as Hin.
      { rewrite Hph. apply (elem_of_init_placeholders sf gpl cfg). by left. }
      exact (new_device_value _ (p_id event) _ "usbguard_id" Hin v Hv).
    + by rewrite new_device_unsupplied.
Qed.
End InsertedEntry.

Lemma inserted_entry_keys_witness :
  reachable sample_format sample_placeholders default_config sample_start /\
  p_state mass_storage = 1%Z /\
  str_in "block id" (p_perms mass_storage) = true /\
  let s' :=
    (_on_devices_presence_changed sample_format default_config mass_storage
       sample_start).2 in
  exists l d,
    OrdDict.get 42 (data s') = Some l /\
    heap s' !! l = Some d /\
    d !! "name" = Some (PyStr "Mass Storage") /\
    d !! "index" = Some (PyInt 42) /\
    d !! "usbguard_id" = Some (PyInt 42).
Proof.
  assert (H0 : reachable sample_format sample_placeholders default_config
                 sample_start) by apply reach_start.
  assert (H1 : p_state mass_storage = 1%Z) by reflexivity.
  assert (H2 : str_in "block id" (p_perms mass_storage) = true)
    by reflexivity.
  split; [exact H0 |]. split; [exact H1 |]. split; [exact H2 |].
  destruct (inserted_entry_keys sample_format sample_placeholders
              default_config sample_start mass_storage "name" H0 H1 H2)
    as (l & d & Hl & Hd & _ & _ & Hv & _ & Hi & Hu).
  exists l, d. split; [exact Hl |]. split; [exact Hd |].
  split; [apply (Hv ltac:(vm_compute; left) "Mass Storage" eq_refl) |].
  split; [exact Hi | exact Hu].
Defined.

(** ** The outside calls made by a click *)

Section ClickCalls.
Context (sf : string -> gmap string value -> composite)
        (gpl : string -> list string) (cfg : config).

Lemma on_click_act button index rpc_ok s :
  on_click sf cfg button index rpc_ok s = (Ok tt, s) \/
  exists act,
    on_click sf cfg button index rpc_ok s =
      _set_policy sf cfg act index rpc_ok s /\
    (act = Reject -> button_reject cfg = PyInt button).
Proof.
  unfold on_click.
  destruct (bool_decide_reflect (PyInt button = button_allow cfg));
    [right; exists Allow; by split |].
  destruct (bool_decide_reflect (PyInt button = button_reject cfg));
    [right; exists Reject; by split |].
  destruct (bool_decide_reflect (PyInt button = button_block cfg));
    [right; exists Block; by split | by left].
Qed.

(** X13: what a click adds to the log of outside calls, in any state:
    at most one notification, followed by at most one daemon call, and
    never a re-render request.  A notification is only sent for an id
    that is in the registry; a daemon call is only made for an integer
    index other than 0, with the target code of allow or of reject, and
    of reject only when a reject button is configured: blocking never
    reaches the daemon. *)
Theorem click_outside_calls (s : state) (button : Z) (index : scalar)
    (rpc_ok : bool) :
  exists notes calls,
    log (on_click sf cfg button index rpc_ok s).2 = log s ++ notes ++ calls /\
    (notes = [] \/
     exists k msg,
       index = PyInt k /\ k ∈ OrdDict.keys (data s) /\
       notes = [NotifyUser msg]) /\
    (calls = [] \/
     exists k target,
       index = PyInt k /\ k <> 0%Z /\
       (target = 0%Z \/ target = 2%Z /\ button_reject cfg = PyInt button) /\
       calls = [ApplyDevicePolicy k target (is_permanant s)]).
Proof.
  destruct (on_click_act button index rpc_ok s) as [-> | (act & -> & Hrej)].
  { exists [], []. rewrite app_nil_r. auto. }
  destruct (set_policy_log sf cfg act index rpc_ok s)
    as (notes & calls & Hlog & Hnotes & Hcalls).
  exists notes, calls. split; [done |]. split; [done |].
  destruct Hcalls as [-> | (k & -> & Hk & Hact & ->)]; [by left |].
  right. exists k, (targets act). repeat split; try done.
  destruct act; [by left | done | right; auto].
Qed.


(** X15: in every reachable state each daemon call in the log of
    outside calls is for a device id other than 0 and has the target
    code of allow (0), or of reject (2) when a reject button is
    configured; the target code of block (1) never occurs. *)
Theorem daemon_calls_in_log (s : state) (k target : Z) (permanent : bool) :
  reachable sf gpl cfg s ->
  ApplyDevicePolicy k target permanent ∈ log s ->
  k <> 0%Z /\
  (target = 0%Z \/ target = 2%Z /\ button_reject cfg <> PyNone).
Proof.
  intros Hr. revert k target permanent.
  induction Hr as [ok | s ok _ IH | s sig Hr IH | s b i r _ IH];
    intros k target permanent Hin.
  - destruct ok; by apply elem_of_nil in Hin.
  - destruct ok; by eapply IH.
  - pose proof (reachable_consistent sf gpl cfg s Hr) as Hc.
    assert (log (signal_fired sf cfg sig s).2 = log s ++ [Py3Update]) as Hlog.
    { destruct sig as [e|e]; simpl;
        [by destruct (presence_effect sf cfg e s Hc) as (_ & _ & _ & _ & H)
        |by destruct (policy_effect sf cfg e s Hc) as (_ & _ & _ & _ & H)]. }
    rewrite Hlog, elem_of_app, list_elem_of_singleton in Hin.
    destruct Hin as [Hin | Hin]; [by eapply IH | done].
  - destruct (on_click_act b i r s) as [Hrun | (act & Hrun & Hrej)];
      rewrite Hrun in Hin; [by eapply IH |].
    destruct (set_policy_log sf cfg act i r s)
      as (notes & calls & Hlog & Hnotes & Hcalls).
    rewrite Hlog, !elem_of_app in Hin.
    destruct Hin as [Hin | [Hin | Hin]]; [by eapply IH | |].
    + destruct Hnotes as [-> | (k0 & msg & _ & _ & ->)];
        [by apply elem_of_nil in Hin |].
      by apply list_elem_of_singleton in Hin.
    + destruct Hcalls as [-> | (k0 & _ & Hk0 & Hact & ->)];
        [by apply elem_of_nil in Hin |].
      apply list_elem_of_singleton in Hin. injection Hin as -> -> _.
      split; [done |].
      destruct act; [by left | done | right].
      split; [done | by rewrite Hrej].
Qed.
End ClickCalls.

(** ** Clicks on what is shown, rendering, and the start-up enumeration *)

Section Shown.
Context (sf : string -> gmap string value -> composite)
        (gpl : string -> list string) (cfg : config).

(** X16: in a reachable state, blocking through the tag of any device
    segment of the stored device list (other than id 0) returns without
    raising, removes exactly that device from the registry, and stores a
    rebuilt device list in which no segment carries that tag any more. *)
Theorem shown_device_can_be_blocked (s : state) (c : composite)
    (g : segment) (k : Z) (rpc_ok : bool) :
  reachable sf gpl cfg s ->
  new_data s = Some c -> g ∈ c -> seg_index g = PyInt k -> k <> 0%Z ->
  let run := _set_policy sf cfg Block (seg_index g) rpc_ok s in
  run.1 = Ok tt /\
  (forall k', k' ∈ OrdDict.keys (data run.2) <->
              k' <> k /\ k' ∈ OrdDict.keys (data s)) /\
  exists c',
    new_data run.2 = Some c' /\
    forall g', g' ∈ c' -> seg_index g' <> PyInt k.
Proof.
  intros Hr Hn Hg Hi Hk. cbv zeta. rewrite Hi.
  pose proof (reachable_consistent sf gpl cfg s Hr) as Hc.
  pose proof (reachable_shown_ok sf gpl cfg s Hr c Hn) as Hshown.
  rewrite Forall_forall in Hshown.
  assert (k ∈ OrdDict.keys (data s)) as Hin.
  { destruct (Hshown g Hg) as [Hs | (k0 & Hk0 & Hi0)]; congruence. }
  destruct (set_policy_block sf cfg k rpc_ok s (consistent_wf s Hc) Hk Hin)
    as (s' & c0 & Hrun & Hd & _ & _ & _).
  pose proof (set_policy_registry sf cfg Block (PyInt k) rpc_ok s Hc) as Hreg.
  rewrite Hrun in *. simpl in *.
  split; [done |]. split.
  { intros k'. rewrite Hd. apply OrdDictFacts.keys_del. }
  destruct Hreg as [[Hd' _] | (k0 & _ & _ & _ & _ & Hn')].
  - exfalso. rewrite Hd in Hd'.
    assert (k ∈ OrdDict.keys (OrdDict.del k (data s))) as Hbad
      by (by rewrite Hd').
    apply OrdDictFacts.keys_del in Hbad. tauto.
  - eexists. split; [exact Hn' |]. intros g' Hg' Hi'.
    pose proof (render_registry_tags sf cfg (heap s') (data s')) as Ht.
    rewrite Forall_forall in Ht.
    destruct (Ht g' Hg') as [Hs | (k1 & Hk1 & Hi1)]; [congruence |].
    rewrite Hi' in Hi1. injection Hi1 as <-.
    rewrite Hd in Hk1. apply OrdDictFacts.keys_del in Hk1. tauto.
Qed.

(** X17: a click on the separator, whose tag is ['sep'], or outside any
    segment, where the index is [None], does nothing at all for every
    button: the state, the log of outside calls included, is unchanged
    and nothing is raised. *)
Theorem separator_click_ignored (s : state) (button : Z) (index : scalar)
    (rpc_ok : bool) :
  index = PyStr "sep" \/ index = PyNone ->
  on_click sf cfg button index rpc_ok s = (Ok tt, s).
Proof.
  intros Hi.
  destruct (on_click_cases sf cfg button index rpc_ok s)
    as [-> | [act ->]]; [done |].
  apply set_policy_skip. destruct Hi as [-> | ->]; [by right | by left].
Qed.

(** X18: a presence signal with a state code other than 1 for an id that
    is not in the registry (a removal of an unknown device) changes
    neither the registry nor any device dict, and, in a reachable state,
    does not raise. *)
Theorem removal_of_unknown_id (s : state) (event : payload) :
  reachable sf gpl cfg s ->
  p_state event <> 1%Z ->
  p_id event ∉ OrdDict.keys (data s) ->
  let run := _on_devices_presence_changed sf cfg event s in
  run.1 = Ok tt /\ data run.2 = data s /\ heap run.2 = heap s.
Proof.
  intros Hr Hst Hin. cbv zeta.
  pose proof (reachable_consistent sf gpl cfg s Hr) as Hc.
  destruct (presence_effect sf cfg event s Hc) as (H1 & Hd & Hh & _).
  apply Z.eqb_neq in Hst. rewrite Hst in Hd, Hh. simpl in Hh.
  apply OrdDictFacts.mem_false_keys in Hin.
  rewrite (del_absent _ _ Hin) in Hd. by repeat split.
Qed.

Lemma reachable_error s :
  reachable sf gpl cfg s ->
  error s = None \/ error s = Some STRING_USBGUARD_DBUS.
Proof.
  induction 1 as [ok | s ok _ IH | s sig _ IH | s b i r _ IH].
  - destruct ok; [by left | by right].
  - destruct ok; [by left | by right].
  - destruct (signal_fired_frame sf cfg sig s) as (_ & -> & _). done.
  - destruct (on_click_frame sf cfg b i r s) as (_ & -> & _). done.
Qed.

(** X19: [usbguard] never changes the state; in a reachable state the
    only exception it raises is the module error with the text
    ["usbguard-dbus service not running"], it raises it exactly while
    the last [_init_dbus] has failed, and a later successful
    [_init_dbus] makes it return a response again. *)
Theorem render_error_reporting (s : state) :
  reachable sf gpl cfg s ->
  (usbguard sf cfg s).2 = s /\
  (forall e, (usbguard sf cfg s).1 = Raise e ->
             e = ModuleError STRING_USBGUARD_DBUS) /\
  (usbguard sf cfg (_init_dbus false s).2).1 =
    Raise (ModuleError STRING_USBGUARD_DBUS) /\
  exists r, (usbguard sf cfg (_init_dbus true s).2).1 = Ok r.
Proof.
  intros Hr. unfold usbguard, bind, gets, ret, py3_error, raise; simpl.
  split; [|split; [|split]].
  - destruct (error s); [done |]. by destruct (new_data s).
  - intros e. destruct (reachable_error s Hr) as [-> | ->]; simpl.
    + by destruct (new_data s).
    + by intros [= <-].
  - done.
  - destruct (new_data s); by eexists.
Qed.
End Shown.

Lemma print_fields_ok device out :
  Forall nonempty_str device ->
  print_fields device out = (out ++ map first_char device, None).
Proof.
  intros H. revert out. induction H as [|x device (c & rest & ->) _ IH];
    intros out; simpl; [by rewrite app_nil_r |].
  rewrite IH. by rewrite <- app_assoc.
Qed.

Lemma print_fields_returns device out out' :
  print_fields device out = (out', None) -> Forall nonempty_str device.
Proof.
  revert out. induction device as [|x device IH]; intros out; simpl;
    [constructor |].
  destruct x as [|n|[|c rest]]; simpl; try done.
  intros H. constructor; [by exists c, rest | by eapply IH].
Qed.

(** X20: [_get_all_devices] returns without raising exactly when every
    field of every listed device is a non-empty string, and then it has
    printed the first character of each field, in order.  A device whose
    first field is an integer, as the device id is, makes it raise the
    [TypeError] of [x[0]] at that device, so that with such devices it
    returns only for the empty list. *)
Theorem get_all_devices_outcome (devices : list (list scalar))
    (out : list string) :
  ((_get_all_devices devices out).2 = None <->
   Forall (Forall nonempty_str) devices) /\
  (Forall (Forall nonempty_str) devices ->
   _get_all_devices devices out =
     (out ++ map first_char (concat devices), None)) /\
  (forall n fields rest,
     devices = (PyInt n :: fields) :: rest ->
     _get_all_devices devices out = (out, Some NotSubscriptable)).
Proof.
  assert (Hok : forall devs o,
            Forall (Forall nonempty_str) devs ->
            _get_all_devices devs o = (o ++ map first_char (concat devs), None)).
  { intros devs o H. revert o.
    induction H as [|dev devs Hdev _ IH]; intros o; simpl;
      [by rewrite app_nil_r |].
    rewrite (print_fields_ok dev o Hdev), IH.
    by rewrite map_app, app_assoc. }
  split; [|split; [apply Hok |]].
  - split; [|intros H; by rewrite Hok].
    revert out. induction devices as [|dev devices IH]; intros out; simpl;
      [constructor |].
    destruct (print_fields dev out) as [out' [e|]] eqn:Hp; [done |].
    intros H. constructor; [by eapply print_fields_returns | by eapply IH].
  - by intros n fields rest ->.
Qed.

(** ** The further properties on the sample configuration *)

Lemma sample_pending_reachable :
  reachable sample_format sample_placeholders default_config sample_pending.
Proof.
  apply (reach_signal _ _ _ _ (DevicePresenceChanged mass_storage)),
        reach_start.
Qed.

Lemma sample_allowed_reachable :
  reachable sample_format sample_placeholders default_config sample_allowed.
Proof. apply reach_click, sample_pending_reachable. Qed.

Lemma registry_entries_unique_witness :
  reachable sample_format sample_placeholders default_config sample_pending /\
  NoDup (OrdDict.keys (data sample_pending)) /\
  NoDup (map snd (data sample_pending)).
Proof.
  exact (conj sample_pending_reachable
    (registry_entries_unique sample_format sample_placeholders default_config
       sample_pending sample_pending_reachable)).
Defined.

Lemma entry_index_is_id_witness :
  reachable sample_format sample_placeholders default_config sample_allowed /\
  OrdDict.get 42 (data sample_allowed) = Some 0%nat /\
  exists d, heap sample_allowed !! 0%nat = Some d /\
            d !! "index" = Some (PyInt 42).
Proof.
  assert (H : OrdDict.get 42 (data sample_allowed) = Some 0%nat)
    by reflexivity.
  exact (conj sample_allowed_reachable (conj H
    (entry_index_is_id sample_format sample_placeholders default_config
       sample_allowed 42 0%nat sample_allowed_reachable H))).
Defined.

Lemma manipulate_devices_snapshot_witness :
  reachable sample_format sample_placeholders default_config sample_pending /\
  _manipulate_devices sample_format default_config sample_pending =
    (Ok [Segment "Mass Storage" (PyInt 42)], sample_pending).
Proof.
  split; [exact sample_pending_reachable |].
  rewrite (manipulate_devices_snapshot sample_format sample_placeholders
             default_config sample_pending sample_pending_reachable).
  reflexivity.
Defined.

Lemma signal_handlers_never_raise_witness :
  reachable sample_format sample_placeholders default_config sample_pending /\
  (signal_fired sample_format default_config
     (DevicePolicyChanged mass_storage_allowed) sample_pending).1 = Ok tt /\
  log (signal_fired sample_format default_config
         (DevicePolicyChanged mass_storage_allowed) sample_pending).2 =
    log sample_pending ++ [Py3Update].
Proof.
  exact (conj sample_pending_reachable
    (signal_handlers_never_raise sample_format sample_placeholders
       default_config sample_pending
       (DevicePolicyChanged mass_storage_allowed) sample_pending_reachable)).
Defined.

Lemma device_list_rebuilt_witness :
  reachable sample_format sample_placeholders default_config sample_pending /\
  new_data (_on_devices_presence_changed sample_format default_config
              card_reader sample_pending).2 =
    Some [Segment "Mass Storage" (PyInt 42);
          Segment " \?color=separator \| " (PyStr "sep");
          Segment "{name}" (PyInt 7)].
Proof.
  split; [exact sample_pending_reachable |].
  rewrite (proj1 (device_list_rebuilt sample_format sample_placeholders
                    default_config sample_pending card_reader
                    sample_pending_reachable)).
  reflexivity.
Defined.

Lemma shown_segments_pending_witness :
  let g := Segment "Mass Storage" (PyInt 42) in
  reachable sample_format sample_placeholders default_config sample_pending /\
  new_data sample_pending = Some [g] /\ g ∈ [g] /\
  (seg_index g = PyStr "sep" \/
   exists k, seg_index g = PyInt k /\
             k ∈ OrdDict.keys (data sample_pending)).
Proof.
  intros g.
  assert (H1 : new_data sample_pending = Some [g]) by reflexivity.
  assert (H2 : g ∈ [g]) by left.
  exact (conj sample_pending_reachable (conj H1 (conj H2
    (shown_segments_pending sample_format sample_placeholders default_config
       sample_pending [g] g sample_pending_reachable H1 H2)))).
Defined.

Lemma insertion_keeps_order_witness :
  p_state card_reader = 1%Z /\
  str_in "block id" (p_perms card_reader) = true /\
  OrdDict.keys
    (data (_on_devices_presence_changed sample_format default_config
             card_reader sample_pending).2) = [42%Z; 7%Z].
Proof.
  assert (H1 : p_state card_reader = 1%Z) by reflexivity.
  assert (H2 : str_in "block id" (p_perms card_reader) = true)
    by reflexivity.
  split; [exact H1 |]. split; [exact H2 |].
  rewrite (proj1 (insertion_keeps_order sample_format default_config
                    sample_pending card_reader H1 H2)).
  reflexivity.
Defined.

Lemma signal_leaves_other_devices_witness :
  reachable sample_format sample_placeholders default_config sample_pending /\
  42%Z <> p_id card_reader /\
  OrdDict.get 42
    (data (signal_fired sample_format default_config
             (DevicePresenceChanged card_reader) sample_pending).2) =
    OrdDict.get 42 (data sample_pending).
Proof.
  assert (H : 42%Z <> p_id card_reader) by (simpl; lia).
  exact (conj sample_pending_reachable (conj H
    (proj1 (signal_leaves_other_devices sample_format sample_placeholders
              default_config sample_pending
              (DevicePresenceChanged card_reader) 42
              sample_pending_reachable H)))).
Defined.

Lemma click_leaves_other_devices_witness :
  reachable sample_format sample_placeholders default_config sample_pending /\
  PyInt 7 <> PyInt 42 /\
  OrdDict.get 42 (data sample_pending) = Some 0%nat /\
  let s' := (on_click sample_format default_config 3 (PyInt 7) true
               sample_pending).2 in
  OrdDict.get 42 (data s') = Some 0%nat /\
  heap s' !! 0%nat = heap sample_pending !! 0%nat.
Proof.
  assert (H1 : PyInt 7 <> PyInt 42) by discriminate.
  assert (H2 : OrdDict.get 42 (data sample_pending) = Some 0%nat)
    by reflexivity.
  exact (conj sample_pending_reachable (conj H1 (conj H2
    (click_leaves_other_devices sample_format sample_placeholders
       default_config sample_pending 3 (PyInt 7) true 42 0%nat
       sample_pending_reachable H1 H2)))).
Defined.

Lemma device_dicts_only_gain_action_witness :
  reachable sample_format sample_placeholders default_config sample_pending /\
  heap_grows sample_pending sample_allowed.
Proof.
  exact (conj sample_pending_reachable
    (proj2 (device_dicts_only_gain_action sample_format sample_placeholders
              default_config sample_pending
              (DevicePresenceChanged card_reader) 1 (PyInt 42) true
              sample_pending_reachable))).
Defined.

Lemma placeholders_fixed_witness :
  reachable sample_format sample_placeholders default_config sample_allowed /\
  placeholders sample_allowed = ["name"; "usbguard_id"].
Proof.
  split; [exact sample_allowed_reachable |].
  rewrite (proj1 (placeholders_fixed sample_format sample_placeholders
                    default_config sample_allowed sample_allowed_reachable)).
  reflexivity.
Defined.

Lemma inserted_entry_id_fields_witness :
  reachable sample_format sample_placeholders default_config sample_pending /\
  p_state card_reader = 1%Z /\
  str_in "block id" (p_perms card_reader) = true /\
  let s' := (_on_devices_presence_changed sample_format default_config
               card_reader sample_pending).2 in
  exists l d,
    OrdDict.get 7 (data s') = Some l /\
    heap s' !! l = Some d /\
    d !! "index" = Some (PyInt 7) /\
    d !! "usbguard_id" = Some (PyInt 7).
Proof.
  assert (H1 : p_state card_reader = 1%Z) by reflexivity.
  assert (H2 : str_in "block id" (p_perms card_reader) = true)
    by reflexivity.
  exact (conj sample_pending_reachable (conj H1 (conj H2
    (inserted_entry_id_fields sample_format sample_placeholders
       default_config sample_pending card_reader
       sample_pending_reachable H1 H2)))).
Defined.


Lemma daemon_calls_in_log_witness :
  reachable sample_format sample_placeholders default_config sample_allowed /\
  ApplyDevicePolicy 42 0 false ∈ log sample_allowed /\
  42%Z <> 0%Z /\
  (0%Z = 0%Z \/ 0%Z = 2%Z /\ button_reject default_config <> PyNone).
Proof.
  assert (H : ApplyDevicePolicy 42 0 false ∈ log sample_allowed)
    by (vm_compute; right; right; left).
  exact (conj sample_allowed_reachable (conj H
    (daemon_calls_in_log sample_format sample_placeholders default_config
       sample_allowed 42 0 false sample_allowed_reachable H))).
Defined.

Lemma shown_device_can_be_blocked_witness :
  let g := Segment "Mass Storage" (PyInt 42) in
  reachable sample_format sample_placeholders default_config sample_pending /\
  new_data sample_pending = Some [g] /\ g ∈ [g] /\
  seg_index g = PyInt 42 /\ 42%Z <> 0%Z /\
  (_set_policy sample_format default_config Block (seg_index g) true
     sample_pending).1 = Ok tt.
Proof.
  intros g.
  assert (H1 : new_data sample_pending = Some [g]) by reflexivity.
  assert (H2 : g ∈ [g]) by left.
  assert (H3 : seg_index g = PyInt 42) by reflexivity.
  assert (H4 : 42%Z <> 0%Z) by lia.
  exact (conj sample_pending_reachable (conj H1 (conj H2 (conj H3 (conj H4
    (proj1 (shown_device_can_be_blocked sample_format sample_placeholders
              default_config sample_pending [g] g 42 true
              sample_pending_reachable H1 H2 H3 H4))))))).
Defined.

Lemma separator_click_ignored_witness :
  (PyStr "sep" = PyStr "sep" \/ PyStr "sep" = PyNone) /\
  on_click sample_format default_config 1 (PyStr "sep") true sample_pending
    = (Ok tt, sample_pending).
Proof.
  assert (H : PyStr "sep" = PyStr "sep" \/ PyStr "sep" = PyNone) by (by left).
  exact (conj H
    (separator_click_ignored sample_format default_config sample_pending 1
       (PyStr "sep") true H)).
Defined.

Lemma removal_of_unknown_id_witness :
  let event := {| p_id := 9; p_state := 3; p_old := 1;
                  p_perms := "allow id 1d6b:0002"; p_attrs := ∅ |} in
  reachable sample_format sample_placeholders default_config sample_pending /\
  p_state event <> 1%Z /\
  (p_id event ∉ OrdDict.keys (data sample_pending)) /\
  data (_on_devices_presence_changed sample_format default_config event
          sample_pending).2 = data sample_pending.
Proof.
  intros event.
  assert (H1 : p_state event <> 1%Z) by (simpl; lia).
  assert (H2 : p_id event ∉ OrdDict.keys (data sample_pending)).
  { apply OrdDictFacts.mem_false_keys. reflexivity. }
  exact (conj sample_pending_reachable (conj H1 (conj H2
    (proj1 (proj2 (removal_of_unknown_id sample_format sample_placeholders
                     default_config sample_pending event
                     sample_pending_reachable H1 H2)))))).
Defined.

Lemma render_error_reporting_witness :
  reachable sample_format sample_placeholders default_config sample_pending /\
  (usbguard sample_format default_config (_init_dbus false sample_pending).2).1
    = Raise (ModuleError STRING_USBGUARD_DBUS).
Proof.
  exact (conj sample_pending_reachable
    (proj1 (proj2 (proj2
       (render_error_reporting sample_format sample_placeholders
          default_config sample_pending sample_pending_reachable))))).
Defined.

(** ** How signals compose *)

Section Composition.
Context (sf : string -> gmap string value -> composite)
        (gpl : string -> list string) (cfg : config).

Lemma signal_registry sig s :
  data (signal_fired sf cfg sig s).2 = data s \/
  data (signal_fired sf cfg sig s).2 =
    OrdDict.set (signal_id sig) (length (heap s)) (data s) \/
  data (signal_fired sf cfg sig s).2 = OrdDict.del (signal_id sig) (data s).
Proof.
  destruct sig as [e|e]; simpl.
  - rewrite presence_data.
    destruct (p_state e =? 1)%Z; [destruct (str_in _ _) |]; auto.
  - rewrite policy_data. destruct (_ || _); auto.
Qed.

Lemma signal_keys_other sig s k :
  k <> signal_id sig ->
  k ∈ OrdDict.keys (data (signal_fired sf cfg sig s).2) <->
  k ∈ OrdDict.keys (data s).
Proof.
  intros Hk. destruct (signal_registry sig s) as [-> | [-> | ->]];
    rewrite ?OrdDictFacts.keys_set, ?OrdDictFacts.keys_del; tauto.
Qed.

(** Whether the id of a signal is pending after it, given whether it
    was pending before: this does not depend on the rest of the state. *)
Lemma signal_keys_own sig s1 s2 :
  (signal_id sig ∈ OrdDict.keys (data s1) <->
   signal_id sig ∈ OrdDict.keys (data s2)) ->
  signal_id sig ∈ OrdDict.keys (data (signal_fired sf cfg sig s1).2) <->
  signal_id sig ∈ OrdDict.keys (data (signal_fired sf cfg sig s2).2).
Proof.
  intros H. destruct sig as [e|e]; simpl in *.
  - rewrite !presence_data.
    destruct (p_state e =? 1)%Z; [destruct (str_in _ _) |];
      rewrite ?OrdDictFacts.keys_set, ?OrdDictFacts.keys_del; tauto.
  - rewrite !policy_data. destruct (_ || _);
      rewrite ?OrdDictFacts.keys_del; tauto.
Qed.

(** X21: signals about different devices commute as far as the set of
    pending ids goes: handling them in either order leaves the same ids
    in the registry (the order of the entries may differ). *)
Theorem signals_for_different_devices_commute (s : state)
    (sig1 sig2 : signal) (k : Z) :
  signal_id sig1 <> signal_id sig2 ->
  k ∈ OrdDict.keys (data (replay sf cfg [sig1; sig2] s)) <->
  k ∈ OrdDict.keys (data (replay sf cfg [sig2; sig1] s)).
Proof.
  intros Hne. simpl.
  destruct (decide (k = signal_id sig1)) as [-> | H1].
  - rewrite (signal_keys_other sig2) by done.
    apply signal_keys_own. by rewrite (signal_keys_other sig2) by done.
  - rewrite (signal_keys_other sig1 _ k) by done.
    destruct (decide (k = signal_id sig2)) as [-> | H2].
    + apply signal_keys_own. by rewrite (signal_keys_other sig1) by done.
    + by rewrite !(signal_keys_other _ _ k) by done.
Qed.

Lemma mem_set_same {V} k (v : V) d : OrdDict.mem k (OrdDict.set k v d) = true.
Proof. unfold OrdDict.mem. by rewrite OrdDictFacts.get_set_eq. Qed.

Lemma mem_del_same {V} k (d : list (Z * V)) :
  OrdDict.mem k (OrdDict.del k d) = false.
Proof. unfold OrdDict.mem. by rewrite OrdDictFacts.get_del_eq. Qed.

(** X22: a signal that is delivered twice in a row leaves the same ids
    in the same order in the registry as a single delivery. *)
Theorem signal_redelivery_keeps_registry (s : state) (sig : signal) :
  OrdDict.keys (data (replay sf cfg [sig; sig] s)) =
  OrdDict.keys (data (replay sf cfg [sig] s)).
Proof.
  simpl. destruct sig as [e|e]; simpl.
  - rewrite !presence_data.
    destruct (p_state e =? 1)%Z; [destruct (str_in _ _) |]; [ |done| ].
    + by rewrite keys_set_order, mem_set_same.
    + by rewrite (del_absent _ _ (mem_del_same _ _)).
  - rewrite !policy_data. destruct (_ || _); [|done].
    by rewrite (del_absent _ _ (mem_del_same _ _)).
Qed.
End Composition.

Lemma signals_for_different_devices_commute_witness :
  signal_id (DevicePresenceChanged card_reader) <>
    signal_id (DevicePolicyChanged mass_storage_allowed) /\
  (7%Z ∈ OrdDict.keys
          (data (replay sample_format default_config
                   [DevicePresenceChanged card_reader;
                    DevicePolicyChanged mass_storage_allowed]
                   sample_pending)) <->
   7%Z ∈ OrdDict.keys
          (data (replay sample_format default_config
                   [DevicePolicyChanged mass_storage_allowed;
                    DevicePresenceChanged card_reader]
                   sample_pending))).
Proof.
  assert (H : signal_id (DevicePresenceChanged card_reader) <>
              signal_id (DevicePolicyChanged mass_storage_allowed))
    by (simpl; lia).
  exact (conj H
    (signals_for_different_devices_commute sample_format default_config
       sample_pending (DevicePresenceChanged card_reader)
       (DevicePolicyChanged mass_storage_allowed) 7 H)).
Defined.

(** ** The exceptions of a click *)

Section ClickErrors.
Context (sf : string -> gmap string value -> composite)
        (gpl : string -> list string) (cfg : config).

(** X23: the exceptions that [on_click] can raise in a reachable state
    whose registry holds a device (the listener has then handled a
    signal, so that [self.proxy] is bound), and no others: [KeyError]
    only when the index is not the id of a device in the registry, the
    daemon's error only when the daemon call fails, [TypeError] only for
    a string index.  A click on a pending device with a daemon that
    accepts the call therefore returns. *)
Theorem click_exceptions (s : state) (button : Z) (index : scalar)
    (rpc_ok : bool) (e : exn) :
  reachable sf gpl cfg s ->
  data s <> [] ->
  (on_click sf cfg button index rpc_ok s).1 = Raise e ->
  (e = KeyError /\
   forall k, index = PyInt k -> k ∉ OrdDict.keys (data s)) \/
  (e = DaemonError /\ rpc_ok = false) \/
  (e = TypeError /\ exists str, index = PyStr str).
Proof.
  intros Hr _. pose proof (reachable_consistent sf gpl cfg s Hr) as Hc.
  destruct (on_click_cases sf cfg button index rpc_ok s)
    as [-> | [act ->]]; [done |].
  destruct index as [|k|str].
  - by rewrite set_policy_skip by by left.
  - destruct (decide (k = 0%Z)) as [->|Hk];
      [by rewrite set_policy_skip by by left |].
    destruct (decide (k ∈ OrdDict.keys (data s))) as [Hin|Hin].
    + destruct (decide (act = Block)) as [->|Hact].
      * destruct (set_policy_block sf cfg k rpc_ok s (consistent_wf s Hc)
                    Hk Hin) as (s' & c & -> & _). done.
      * destruct (set_policy_grant sf cfg act k rpc_ok s Hact Hk Hin)
          as (s' & -> & _). simpl.
        destruct rpc_ok; [done |]. intros [= <-]. right; left. done.
    + destruct (truthy (PyStr (format_notification cfg))) eqn:Hfmt.
      * rewrite set_policy_absent_notify by done. intros [= <-].
        left. split; [done |]. by intros k' [= <-].
      * rewrite set_policy_absent_quiet by done.
        destruct act; simpl;
          try (destruct rpc_ok; [done |]; intros [= <-]; right; left; done).
        intros [= <-]. left. split; [done |]. by intros k' [= <-].
  - unfold _set_policy. destruct (_ && _ && _); [|done].
    destruct (truthy (PyStr (format_notification cfg))).
    + intros [= <-]. left. by split.
    + destruct act; simpl; intros [= <-];
        [right; right; split; [done | by eexists]
        | left; by split
        | right; right; split; [done | by eexists]].
Qed.
End ClickErrors.

Lemma click_exceptions_witness :
  reachable sample_format sample_placeholders default_config sample_pending /\
  data sample_pending <> [] /\
  (on_click sample_format default_config 1 (PyInt 7) true sample_pending).1
    = Raise KeyError /\
  ((KeyError = KeyError /\
    forall k, PyInt 7 = PyInt k -> k ∉ OrdDict.keys (data sample_pending)) \/
   (KeyError = DaemonError /\ true = false) \/
   (KeyError = TypeError /\ exists str, PyInt 7 = PyStr str)).
Proof.
  assert (H : (on_click sample_format default_config 1 (PyInt 7) true
                 sample_pending).1 = Raise KeyError) by reflexivity.
  assert (H0 : data sample_pending <> []) by discriminate.
  split; [exact sample_pending_reachable |]. split; [exact H0 |].
  split; [exact H |].
  exact (click_exceptions sample_format sample_placeholders default_config
           sample_pending 1 (PyInt 7) true KeyError
           sample_pending_reachable H0 H).
Defined.
